(** * The libunbound binding of hsd (node_unbound.cc), embedded in Rocq

    The binding is a thin adapter between a JavaScript runtime and the
    libunbound resolver engine.  Its behaviour is a sequence of calls into
    three collaborators: the engine ([ub_*]), the C allocator ([strdup],
    [free]) and the runtime (exceptions, the worker queue, the completion
    callback).  The embedding keeps those calls as an explicit trace inside
    a small state-and-error monad, and takes the engine's answers from an
    [Engine] record that every theorem quantifies over. *)

From Stdlib Require Import ZArith QArith String Ascii List Lia.
From Stdlib.Strings Require Import Byte.
From stdpp Require Import base option list gmap strings.

Local Open Scope string_scope.
Local Open Scope list_scope.
Local Open Scope Z_scope.

(** ** JavaScript values handed across the binding *)

(** A JS number is an IEEE double: not-a-number, an infinity, or a finite
    value, which is a rational. *)
Inductive js_number :=
| num_nan
| num_inf (negative : bool)
| num_fin (q : Q).

Inductive js_error :=
| Error (msg : string)
| TypeError (msg : string).

(** A JS string is held by its UTF-8 bytes, the form [Nan::Utf8String]
    gives to the C side.  [JException e] is the error object built by
    [v8::Exception::Error]. *)
#[local] Unset Elimination Schemes.
Inductive js_value :=
| JUndefined
| JNull
| JBoolean (b : bool)
| JNumber (n : js_number)
| JString (s : string)
| JFunction (f : nat)
| JObject (id : nat)
| JBuffer (bytes : list byte)
| JArray (elems : list js_value)
| JException (e : js_error).
#[local] Set Elimination Schemes.

Definition IsString (v : js_value) : bool :=
  match v with JString _ => true | _ => false end.

Definition IsNumber (v : js_value) : bool :=
  match v with JNumber _ => true | _ => false end.

Definition IsBoolean (v : js_value) : bool :=
  match v with JBoolean _ => true | _ => false end.

Definition IsFunction (v : js_value) : bool :=
  match v with JFunction _ => true | _ => false end.

(** The bytes a C function sees through a [const char *]: everything before
    the first NUL. *)
Fixpoint c_str (s : string) : string :=
  match s with
  | EmptyString => EmptyString
  | String a rest => if Ascii.eqb a Ascii.zero then EmptyString
                     else String a (c_str rest)
  end.

(** [*Nan::Utf8String(v)].  For a value that is not a string the runtime
    first runs JS [ToString], which may call user code; every use in the
    binding comes after an [IsString] check, and the embedding gives the
    empty buffer to the other values. *)
Definition Utf8String (v : js_value) : string :=
  match v with JString s => c_str s | _ => EmptyString end.

(** [Nan::To<bool>]: JS [ToBoolean], total on every value. *)
Definition To_bool (v : js_value) : option bool :=
  Some match v with
       | JUndefined | JNull => false
       | JBoolean b => b
       | JNumber num_nan => false
       | JNumber (num_inf _) => true
       | JNumber (num_fin q) => negb (Qnum q =? 0)
       | JString s => negb (String.eqb s EmptyString)
       | JFunction _ | JObject _ | JBuffer _ | JArray _ | JException _ => true
       end.

(** JS [ToUint32] of a number: truncate toward zero, wrap modulo 2^32. *)
Definition ToUint32 (n : js_number) : Z :=
  match n with
  | num_nan | num_inf _ => 0
  | num_fin q => (Z.quot (Qnum q) (Z.pos (Qden q))) mod 2 ^ 32
  end.

(** [Nan::To<uint32_t>].  On a value that is not a number the runtime runs
    JS [ToNumber] first (user code again); the binding only converts after
    [IsNumber], and the embedding has no answer elsewhere. *)
Definition To_uint32 (v : js_value) : option Z :=
  match v with JNumber n => Some (ToUint32 n) | _ => None end.

(** The C cast [(int)u] of a [uint32_t]. *)
Definition int_of_uint32 (u : Z) : Z :=
  if u <? 2 ^ 31 then u else u - 2 ^ 32.

(** [v8::FunctionCallbackInfo]: the receiver, the construct-call flag and the
    actual arguments. *)
Record FunctionCallbackInfo := {
  This : nat;
  IsConstructCall : bool;
  args : list js_value
}.

Definition Length (info : FunctionCallbackInfo) : Z :=
  Z.of_nat (length (args info)).

(** [info[i]]: V8 answers [undefined] beyond the actual arguments. *)
Definition info_at (info : FunctionCallbackInfo) (i : nat) : js_value :=
  nth i (args info) JUndefined.

(** [v8::Array::Set(i, v)]: a JS array grows when written past its end. *)
Definition array_set (i : nat) (v : js_value) (a : list js_value)
  : list js_value :=
  if (i <? length a)%nat then <[i := v]> a
  else a ++ replicate (i - length a)%nat JUndefined ++ [v].

(** ** The resolver engine and the allocator *)

(** A non-null [struct ub_ctx *]. *)
Definition ub_ctx := nat.

(** The fields of [struct ub_result] the binding reads.  [answer_packet]
    is the memory readable at the engine's pointer. *)
Record ub_result := {
  answer_packet : list byte;
  answer_len : Z;
  secure : Z;
  bogus : Z;
  why_bogus : option string
}.

(** The engine entry points that answer with an [int] status, with the
    arguments the binding passes.  A context argument is the raw pointer
    held by the handle, [None] for NULL. *)
Inductive ub_call :=
| ub_ctx_debugout (c : option ub_ctx) (out : option nat)
| ub_ctx_debuglevel (c : option ub_ctx) (d : Z)
| ub_ctx_set_option (c : option ub_ctx) (opt val : string)
| ub_ctx_config (c : option ub_ctx) (fname : string)
| ub_ctx_set_fwd (c : option ub_ctx) (addr : string)
| ub_ctx_set_stub (c : option ub_ctx) (zone addr : string) (isprime : Z)
| ub_ctx_resolvconf (c : option ub_ctx) (fname : string)
| ub_ctx_hosts (c : option ub_ctx) (fname : string)
| ub_ctx_add_ta (c : option ub_ctx) (ta : string)
| ub_ctx_add_ta_autr (c : option ub_ctx) (fname : string)
| ub_ctx_add_ta_file (c : option ub_ctx) (fname : string)
| ub_ctx_trustedkeys (c : option ub_ctx) (fname : string)
| ub_ctx_zone_add (c : option ub_ctx) (zone_name zone_type : string)
| ub_ctx_zone_remove (c : option ub_ctx) (zone_name : string)
| ub_ctx_data_add (c : option ub_ctx) (data : string)
| ub_ctx_data_remove (c : option ub_ctx) (data : string).

(** Everything the binding asks of its collaborators, in program order. *)
Inductive event :=
| ev_ub (call : ub_call)
| ev_ub_ctx_create
| ev_ub_ctx_delete (c : ub_ctx)
| ev_ub_ctx_get_option (c : option ub_ctx) (opt : string)
| ev_ub_resolve (c : option ub_ctx) (name : string) (rrtype rrclass : Z)
| ev_ub_resolve_free (r : ub_result)
| ev_strdup (s : string) (p : nat)
| ev_free (p : nat)
| ev_callback (f : nat) (argv : list js_value).

(** The answers of the collaborators.  The engine is stateful, so each
    answer may depend on all that was asked before.  [New_v8_String] is what
    [Nan::New<v8::String>] makes of the bytes of a C string: V8 decodes them
    as UTF-8 and puts U+FFFD where they are not well-formed, so the JS
    string need not have the bytes it was made from. *)
Record Engine := {
  ub_strerror : Z -> option string;
  ub_version : string;
  ub_ctx_create : list event -> option ub_ctx;
  ub_status : list event -> ub_call -> Z;
  ub_ctx_get_option : list event -> option ub_ctx -> string -> Z * option string;
  ub_resolve : list event -> option ub_ctx -> string -> Z -> Z
               -> Z * option ub_result;
  malloc_ok : list event -> string -> bool;
  New_v8_String : string -> string
}.

(** ** Native objects *)

(** [class NodeUnbound]: the context handle. *)
Record NodeUnbound := { ctx : option ub_ctx }.

(** [class NodeUnboundWorker], with the two fields of its base class
    [Nan::AsyncWorker] that the lifecycle uses and its persistent
    handle table. *)
Record NodeUnboundWorker := {
  w_callback : option nat;
  w_errmsg : option string;
  w_persistent : list (string * js_value);
  w_ctx : option ub_ctx;
  w_name : option nat;
  w_rrtype : Z;
  w_rrclass : Z;
  w_result : option ub_result
}.

(** ** The world the binding runs in *)

Record world := {
  heap : gmap nat string;
  wrapped : gmap nat NodeUnbound;
  queue : list NodeUnboundWorker;
  trace : list event
}.

Definition set_heap (h : gmap nat string) (w : world) : world :=
  {| heap := h; wrapped := wrapped w; queue := queue w; trace := trace w |}.

Definition set_wrapped (o : gmap nat NodeUnbound) (w : world) : world :=
  {| heap := heap w; wrapped := o; queue := queue w; trace := trace w |}.

Definition set_queue (q : list NodeUnboundWorker) (w : world) : world :=
  {| heap := heap w; wrapped := wrapped w; queue := q; trace := trace w |}.

Definition set_trace (t : list event) (w : world) : world :=
  {| heap := heap w; wrapped := wrapped w; queue := queue w; trace := t |}.

(** A computation returns, leaves a pending JS exception, or brings the
    process down (a failed [assert], a [FromJust] on nothing, a use of
    freed memory). *)
Inductive outcome (A : Type) :=
| Ok (a : A)
| Throw (e : js_error)
| Abort.

Arguments Ok {A} a.
Arguments Throw {A} e.
Arguments Abort {A}.

Definition M (A : Type) : Type := world -> outcome A * world.

Definition ret {A} (a : A) : M A := fun w => (Ok a, w).

Definition bind {A B} (m : M A) (k : A -> M B) : M B :=
  fun w => match m w with
           | (Ok a, w') => k a w'
           | (Throw e, w') => (Throw e, w')
           | (Abort, w') => (Abort, w')
           end.

Declare Scope nu_scope.
Delimit Scope nu_scope with nu.
Notation "x <- m ;; k" := (bind m (fun x => k))
  (at level 20, m at level 99, k at level 200, only parsing) : nu_scope.
Notation "m ;; k" := (bind m (fun _ => k))
  (at level 100, k at level 200, only parsing, right associativity) : nu_scope.
Local Open Scope nu_scope.

Definition throw {A} (e : js_error) : M A := fun w => (Throw e, w).
Definition abort {A} : M A := fun w => (Abort, w).

Definition ThrowError {A} (msg : string) : M A := throw (Error msg).
Definition ThrowTypeError {A} (msg : string) : M A := throw (TypeError msg).

Definition emit (e : event) : M unit :=
  fun w => (Ok tt, set_trace (trace w ++ [e]) w).

Definition history : M (list event) := fun w => (Ok (trace w), w).

(** [Maybe<T>::FromJust()] *)
Definition FromJust {A} (m : option A) : M A :=
  match m with Some a => ret a | None => abort end.

(** [assert(b)] *)
Definition assert (b : bool) : M unit := if b then ret tt else abort.

(** ** Calls into the collaborators *)

(** An engine entry point that answers with a status. *)
Definition engine (E : Engine) (call : ub_call) : M Z :=
  fun w => (Ok (ub_status E (trace w) call),
            set_trace (trace w ++ [ev_ub call]) w).

Definition call_ub_ctx_create (E : Engine) : M (option ub_ctx) :=
  fun w => (Ok (ub_ctx_create E (trace w)),
            set_trace (trace w ++ [ev_ub_ctx_create]) w).

Definition call_ub_ctx_delete (c : ub_ctx) : M unit :=
  emit (ev_ub_ctx_delete c).

(** [ub_ctx_get_option(ctx, opt, &value)]: the value, when there is one, is
    a block the engine took from [malloc] and hands over to the caller. *)
Definition call_ub_ctx_get_option (E : Engine) (c : option ub_ctx)
    (opt : string) : M (Z * option nat) :=
  fun w =>
    let '(err, value) := ub_ctx_get_option E (trace w) c opt in
    let w1 := set_trace (trace w ++ [ev_ub_ctx_get_option c opt]) w in
    match value with
    | Some s => let p := fresh (dom (heap w1)) in
                (Ok (err, Some p), set_heap (<[p := s]> (heap w1)) w1)
    | None => (Ok (err, None), w1)
    end.

(** [ub_resolve(ctx, name, rrtype, rrclass, &result)]: the engine reads the
    name through the pointer it is given. *)
Definition call_ub_resolve (E : Engine) (c : option ub_ctx)
    (name : option nat) (rrtype rrclass : Z) : M (Z * option ub_result) :=
  fun w =>
    match name ≫= (fun p => heap w !! p) with
    | Some s => (Ok (ub_resolve E (trace w) c s rrtype rrclass),
                 set_trace (trace w ++ [ev_ub_resolve c s rrtype rrclass]) w)
    | None => (Abort, w)
    end.

Definition call_ub_resolve_free (r : ub_result) : M unit :=
  emit (ev_ub_resolve_free r).

(** [strdup(s)]: a fresh block with the bytes of [s], or NULL. *)
Definition strdup (E : Engine) (s : string) : M (option nat) :=
  fun w =>
    if malloc_ok E (trace w) s then
      let p := fresh (dom (heap w)) in
      (Ok (Some p),
       set_trace (trace w ++ [ev_strdup s p])
         (set_heap (<[p := s]> (heap w)) w))
    else (Ok None, w).

(** [free(p)] for a non-null [p]: the block must be live. *)
Definition free (p : nat) : M unit :=
  fun w =>
    match heap w !! p with
    | Some _ => (Ok tt,
                 set_trace (trace w ++ [ev_free p])
                   (set_heap (delete p (heap w)) w))
    | None => (Abort, w)
    end.

(** [Nan::New<v8::String>(p)] on a C string in memory. *)
Definition New_String (E : Engine) (p : nat) : M js_value :=
  fun w => match heap w !! p with
           | Some s => (Ok (JString (New_v8_String E s)), w)
           | None => (Abort, w)
           end.

(** [Nan::imp::kMaxLength] *)
Definition kMaxLength : Z := 0x3fffffff.

(** [Nan::CopyBuffer(data, size).ToLocalChecked()]: the size parameter is a
    [uint32_t], Nan asserts it is at most [kMaxLength], and the copy reads
    [size] bytes at [data]. *)
Definition CopyBuffer (data : list byte) (size : Z) : M js_value :=
  let size := size mod 2 ^ 32 in
  if kMaxLength <? size then abort
  else if Z.of_nat (length data) <? size then abort
  else ret (JBuffer (take (Z.to_nat size) data)).

(** [callback->Call(argc, argv, async_resource)] *)
Definition callback_Call (callback : option nat) (argv : list js_value)
  : M unit :=
  match callback with
  | Some f => emit (ev_callback f argv)
  | None => abort
  end.

(** [Nan::AsyncQueueWorker(worker)] *)
Definition AsyncQueueWorker (worker : NodeUnboundWorker) : M unit :=
  fun w => (Ok tt, set_queue (queue w ++ [worker]) w).

(** [Nan::ObjectWrap::Wrap]: the JS object [this] now owns the native
    object. *)
Definition Wrap (this : nat) (ub : NodeUnbound) : M unit :=
  fun w => (Ok tt, set_wrapped (<[this := ub]> (wrapped w)) w).

(** [ub->ctx = c] on the native object that [this] wraps: the object is
    shared with the wrapper, so the write is seen there. *)
Definition assign_ctx (this : nat) (c : option ub_ctx) : M NodeUnbound :=
  fun w => (Ok {| ctx := c |},
            set_wrapped (<[this := {| ctx := c |}]> (wrapped w)) w).

(** ** node_unbound.cc *)

Definition nu_strerror (E : Engine) (err : Z) : string :=
  let msg := ub_strerror E err in
  let msg := match msg with Some m => m | None => "unknown error" end in
  let size := Z.of_nat (String.length msg) in
  let msg := if 256 <? size then "unknown error" else msg in
  "libunbound: " +:+ msg.

(** The capacity of the static buffer [errmsg] that [sprintf] fills. *)
Definition errmsg_size : Z := 12 + 256 + 1.

Definition NodeUnbound_ctor : NodeUnbound := {| ctx := None |}.

Definition NodeUnbound_dtor (ub : NodeUnbound) : M NodeUnbound :=
  match ctx ub with
  | Some c => call_ub_ctx_delete c ;; ret {| ctx := None |}
  | None => ret ub
  end.

Definition NodeUnbound_Version (E : Engine) (info : FunctionCallbackInfo)
  : M js_value :=
  if negb (Length info =? 0) then
    ThrowError "unbound.version() requires no arguments."
  else ret (JString (New_v8_String E (ub_version E))).

Definition NodeUnbound_New (E : Engine) (info : FunctionCallbackInfo)
  : M js_value :=
  if negb (IsConstructCall info) then
    ThrowError "Could not create Unbound instance."
  else
    let ub := NodeUnbound_ctor in
    Wrap (This info) ub ;;
    c <- call_ub_ctx_create E ;;
    ub <- assign_ctx (This info) c ;;
    if negb (bool_decide (is_Some (ctx ub))) then
      ThrowError "Could not create Unbound instance."
    else
      err <- engine E (ub_ctx_debugout (ctx ub) None) ;;
      if negb (err =? 0) then ThrowError (nu_strerror E err)
      else
        err <- engine E (ub_ctx_debuglevel (ctx ub) 0) ;;
        if negb (err =? 0) then ThrowError (nu_strerror E err)
        else ret (JObject (This info)).

(** From here on [ub] is the native object behind the receiver,
    [ObjectWrap::Unwrap<NodeUnbound>(info.Holder())]: the methods are
    installed with the class signature, so the runtime only lets them run
    on an instance that [NodeUnbound_New] has wrapped. *)

Definition NodeUnbound_SetOption (E : Engine) (ub : NodeUnbound)
    (info : FunctionCallbackInfo) : M js_value :=
  if negb (Length info =? 2) then
    ThrowError "unbound.setOption() requires arguments."
  else if negb (IsString (info_at info 0)) then
    ThrowTypeError "First argument must be a string."
  else if negb (IsString (info_at info 1)) then
    ThrowTypeError "Second argument must be a string."
  else
    let opt := Utf8String (info_at info 0) in
    let value := Utf8String (info_at info 1) in
    err <- engine E (ub_ctx_set_option (ctx ub) opt value) ;;
    if negb (err =? 0) then ThrowError (nu_strerror E err)
    else ret (JObject (This info)).

Definition NodeUnbound_GetOption (E : Engine) (ub : NodeUnbound)
    (info : FunctionCallbackInfo) : M js_value :=
  if negb (Length info =? 1) then
    ThrowError "unbound.getOption() requires arguments."
  else if negb (IsString (info_at info 0)) then
    ThrowTypeError "First argument must be a string."
  else
    let opt := Utf8String (info_at info 0) in
    r <- call_ub_ctx_get_option E (ctx ub) opt ;;
    let '(err, value) := r in
    if negb (err =? 0) then ThrowError (nu_strerror E err)
    else
      match value with
      | None => ret JNull
      | Some value =>
          rv <- New_String E value ;;
          free value ;;
          ret rv
      end.

Definition NodeUnbound_SetConfig (E : Engine) (ub : NodeUnbound)
    (info : FunctionCallbackInfo) : M js_value :=
  if negb (Length info =? 1) then
    ThrowError "unbound.setConfig() requires arguments."
  else if negb (IsString (info_at info 0)) then
    ThrowTypeError "First argument must be a string."
  else
    let fname := Utf8String (info_at info 0) in
    err <- engine E (ub_ctx_config (ctx ub) fname) ;;
    if negb (err =? 0) then ThrowError (nu_strerror E err)
    else ret (JObject (This info)).

Definition NodeUnbound_SetForward (E : Engine) (ub : NodeUnbound)
    (info : FunctionCallbackInfo) : M js_value :=
  if negb (Length info =? 1) then
    ThrowError "unbound.setForward() requires arguments."
  else if negb (IsString (info_at info 0)) then
    ThrowTypeError "First argument must be a string."
  else
    let addr := Utf8String (info_at info 0) in
    err <- engine E (ub_ctx_set_fwd (ctx ub) addr) ;;
    if negb (err =? 0) then ThrowError (nu_strerror E err)
    else ret (JObject (This info)).

Definition NodeUnbound_SetStub (E : Engine) (ub : NodeUnbound)
    (info : FunctionCallbackInfo) : M js_value :=
  if negb (Length info =? 3) then
    ThrowError "unbound.setStub() requires arguments."
  else if negb (IsString (info_at info 0)) then
    ThrowTypeError "First argument must be a string."
  else if negb (IsString (info_at info 1)) then
    ThrowTypeError "Second argument must be a string."
  else if negb (IsBoolean (info_at info 2)) then
    ThrowTypeError "Third argument must be a boolean."
  else
    let zone := Utf8String (info_at info 0) in
    let addr := Utf8String (info_at info 1) in
    isprime <- FromJust (To_bool (info_at info 2)) ;;
    err <- engine E (ub_ctx_set_stub (ctx ub) zone addr (Z.b2z isprime)) ;;
    if negb (err =? 0) then ThrowError (nu_strerror E err)
    else ret (JObject (This info)).

Definition NodeUnbound_SetResolvConf (E : Engine) (ub : NodeUnbound)
    (info : FunctionCallbackInfo) : M js_value :=
  if negb (Length info =? 1) then
    ThrowError "unbound.setResolvConf() requires arguments."
  else if negb (IsString (info_at info 0)) then
    ThrowTypeError "First argument must be a string."
  else
    let fname := Utf8String (info_at info 0) in
    err <- engine E (ub_ctx_resolvconf (ctx ub) fname) ;;
    if negb (err =? 0) then ThrowError (nu_strerror E err)
    else ret (JObject (This info)).

Definition NodeUnbound_SetHosts (E : Engine) (ub : NodeUnbound)
    (info : FunctionCallbackInfo) : M js_value :=
  if negb (Length info =? 1) then
    ThrowError "unbound.setHosts() requires arguments."
  else if negb (IsString (info_at info 0)) then
    ThrowTypeError "First argument must be a string."
  else
    let fname := Utf8String (info_at info 0) in
    err <- engine E (ub_ctx_hosts (ctx ub) fname) ;;
    if negb (err =? 0) then ThrowError (nu_strerror E err)
    else ret (JObject (This info)).

Definition NodeUnbound_AddTrustAnchor (E : Engine) (ub : NodeUnbound)
    (info : FunctionCallbackInfo) : M js_value :=
  if negb (Length info =? 1) then
    ThrowError "unbound.addTrustAnchor() requires arguments."
  else if negb (IsString (info_at info 0)) then
    ThrowTypeError "First argument must be a string."
  else
    let ta := Utf8String (info_at info 0) in
    err <- engine E (ub_ctx_add_ta (ctx ub) ta) ;;
    if negb (err =? 0) then ThrowError (nu_strerror E err)
    else ret (JObject (This info)).

Definition NodeUnbound_AddTrustAnchorFile (E : Engine) (ub : NodeUnbound)
    (info : FunctionCallbackInfo) : M js_value :=
  if negb (Length info =? 2) then
    ThrowError "unbound.addTrustAnchorFile() requires arguments."
  else if negb (IsString (info_at info 0)) then
    ThrowTypeError "First argument must be a string."
  else if negb (IsBoolean (info_at info 1)) then
    ThrowTypeError "Second argument must be a boolean."
  else
    let fname := Utf8String (info_at info 0) in
    autr <- FromJust (To_bool (info_at info 2)) ;;
    err <- (if autr : bool then engine E (ub_ctx_add_ta_autr (ctx ub) fname)
            else engine E (ub_ctx_add_ta_file (ctx ub) fname)) ;;
    if negb (err =? 0) then ThrowError (nu_strerror E err)
    else ret (JObject (This info)).

Definition NodeUnbound_AddTrustedKeys (E : Engine) (ub : NodeUnbound)
    (info : FunctionCallbackInfo) : M js_value :=
  if negb (Length info =? 1) then
    ThrowError "unbound.addTrustedKeys() requires arguments."
  else if negb (IsString (info_at info 0)) then
    ThrowTypeError "First argument must be a string."
  else
    let fname := Utf8String (info_at info 0) in
    err <- engine E (ub_ctx_trustedkeys (ctx ub) fname) ;;
    if negb (err =? 0) then ThrowError (nu_strerror E err)
    else ret (JObject (This info)).

Definition NodeUnbound_AddZone (E : Engine) (ub : NodeUnbound)
    (info : FunctionCallbackInfo) : M js_value :=
  if negb (Length info =? 2) then
    ThrowError "unbound.addZone() requires arguments."
  else if negb (IsString (info_at info 0)) then
    ThrowTypeError "First argument must be a string."
  else if negb (IsString (info_at info 1)) then
    ThrowTypeError "Second argument must be a string."
  else
    let zone_name := Utf8String (info_at info 0) in
    let zone_type := Utf8String (info_at info 1) in
    err <- engine E (ub_ctx_zone_add (ctx ub) zone_name zone_type) ;;
    if negb (err =? 0) then ThrowError (nu_strerror E err)
    else ret (JObject (This info)).

Definition NodeUnbound_RemoveZone (E : Engine) (ub : NodeUnbound)
    (info : FunctionCallbackInfo) : M js_value :=
  if negb (Length info =? 1) then
    ThrowError "unbound.removeZone() requires arguments."
  else if negb (IsString (info_at info 0)) then
    ThrowTypeError "First argument must be a string."
  else
    let zone_name := Utf8String (info_at info 0) in
    err <- engine E (ub_ctx_zone_remove (ctx ub) zone_name) ;;
    if negb (err =? 0) then ThrowError (nu_strerror E err)
    else ret (JObject (This info)).

Definition NodeUnbound_AddData (E : Engine) (ub : NodeUnbound)
    (info : FunctionCallbackInfo) : M js_value :=
  if negb (Length info =? 1) then
    ThrowError "unbound.addData() requires arguments."
  else if negb (IsString (info_at info 0)) then
    ThrowTypeError "First argument must be a string."
  else
    let data := Utf8String (info_at info 0) in
    err <- engine E (ub_ctx_data_add (ctx ub) data) ;;
    if negb (err =? 0) then ThrowError (nu_strerror E err)
    else ret (JObject (This info)).

Definition NodeUnbound_RemoveData (E : Engine) (ub : NodeUnbound)
    (info : FunctionCallbackInfo) : M js_value :=
  if negb (Length info =? 1) then
    ThrowError "unbound.removeData() requires arguments."
  else if negb (IsString (info_at info 0)) then
    ThrowTypeError "First argument must be a string."
  else
    let data := Utf8String (info_at info 0) in
    err <- engine E (ub_ctx_data_remove (ctx ub) data) ;;
    if negb (err =? 0) then ThrowError (nu_strerror E err)
    else ret (JObject (This info)).

(** *** The resolve worker *)

Definition set_w_callback (c : option nat) (wk : NodeUnboundWorker)
  : NodeUnboundWorker :=
  {| w_callback := c; w_errmsg := w_errmsg wk;
     w_persistent := w_persistent wk; w_ctx := w_ctx wk;
     w_name := w_name wk; w_rrtype := w_rrtype wk;
     w_rrclass := w_rrclass wk; w_result := w_result wk |}.

Definition set_w_errmsg (m : option string) (wk : NodeUnboundWorker)
  : NodeUnboundWorker :=
  {| w_callback := w_callback wk; w_errmsg := m;
     w_persistent := w_persistent wk; w_ctx := w_ctx wk;
     w_name := w_name wk; w_rrtype := w_rrtype wk;
     w_rrclass := w_rrclass wk; w_result := w_result wk |}.

Definition set_w_persistent (h : list (string * js_value))
    (wk : NodeUnboundWorker) : NodeUnboundWorker :=
  {| w_callback := w_callback wk; w_errmsg := w_errmsg wk;
     w_persistent := h; w_ctx := w_ctx wk;
     w_name := w_name wk; w_rrtype := w_rrtype wk;
     w_rrclass := w_rrclass wk; w_result := w_result wk |}.

Definition set_w_name (n : option nat) (wk : NodeUnboundWorker)
  : NodeUnboundWorker :=
  {| w_callback := w_callback wk; w_errmsg := w_errmsg wk;
     w_persistent := w_persistent wk; w_ctx := w_ctx wk;
     w_name := n; w_rrtype := w_rrtype wk;
     w_rrclass := w_rrclass wk; w_result := w_result wk |}.

Definition set_w_result (r : option ub_result) (wk : NodeUnboundWorker)
  : NodeUnboundWorker :=
  {| w_callback := w_callback wk; w_errmsg := w_errmsg wk;
     w_persistent := w_persistent wk; w_ctx := w_ctx wk;
     w_name := w_name wk; w_rrtype := w_rrtype wk;
     w_rrclass := w_rrclass wk; w_result := r |}.

(** The C conversion of an [int] to [bool]. *)
Definition bool_of_int (i : Z) : bool := negb (i =? 0).

Definition NodeUnboundWorker_ctor (ctx : option ub_ctx) (name : option nat)
    (rrtype rrclass : Z) (callback : nat) : NodeUnboundWorker :=
  {| w_callback := Some callback; w_errmsg := None; w_persistent := [];
     w_ctx := ctx; w_name := name; w_rrtype := rrtype;
     w_rrclass := rrclass; w_result := None |}.

Definition NodeUnboundWorker_dtor (wk : NodeUnboundWorker)
  : M NodeUnboundWorker :=
  wk <- match w_name wk with
        | Some name => free name ;; ret (set_w_name None wk)
        | None => ret wk
        end ;;
  match w_result wk with
  | Some result => call_ub_resolve_free result ;; ret (set_w_result None wk)
  | None => ret wk
  end.

(** [Nan::AsyncWorker::SetErrorMessage]: the worker keeps a copy. *)
Definition SetErrorMessage (msg : string) (wk : NodeUnboundWorker)
  : NodeUnboundWorker :=
  set_w_errmsg (Some msg) wk.

Definition NodeUnboundWorker_Execute (E : Engine) (wk : NodeUnboundWorker)
  : M NodeUnboundWorker :=
  r <- call_ub_resolve E (w_ctx wk) (w_name wk) (w_rrtype wk) (w_rrclass wk) ;;
  let '(err, result) := r in
  let wk := set_w_result result wk in
  if negb (err =? 0) then ret (SetErrorMessage (nu_strerror E err) wk)
  else ret wk.

Definition NodeUnboundWorker_HandleOKCallback (E : Engine)
    (wk : NodeUnboundWorker) : M NodeUnboundWorker :=
  assert (bool_decide (is_Some (w_result wk))) ;;
  result <- FromJust (w_result wk) ;;
  let pkt := answer_packet result in
  let pkt_len := answer_len result mod 2 ^ 64 in
  let ret_ := [] in
  buf <- CopyBuffer pkt pkt_len ;;
  let ret_ := array_set 0 buf ret_ in
  let ret_ := array_set 1 (JBoolean (bool_of_int (secure result))) ret_ in
  let ret_ := array_set 2 (JBoolean (bool_of_int (bogus result))) ret_ in
  let ret_ :=
    match bool_of_int (bogus result), why_bogus result with
    | true, Some why => array_set 3 (JString (New_v8_String E why)) ret_
    | _, _ => array_set 3 JNull ret_
    end in
  call_ub_resolve_free result ;;
  let wk := set_w_result None wk in
  let argv := [JNull; JArray ret_] in
  callback_Call (w_callback wk) argv ;;
  ret wk.

(** [Nan::AsyncWorker::HandleErrorCallback] *)
Definition AsyncWorker_HandleErrorCallback (wk : NodeUnboundWorker)
  : M NodeUnboundWorker :=
  msg <- FromJust (w_errmsg wk) ;;
  let argv := [JException (Error msg)] in
  callback_Call (w_callback wk) argv ;;
  ret wk.

(** [Nan::AsyncWorker::WorkComplete] *)
Definition AsyncWorker_WorkComplete (E : Engine) (wk : NodeUnboundWorker)
  : M NodeUnboundWorker :=
  wk <- (if bool_decide (w_errmsg wk = None)
         then NodeUnboundWorker_HandleOKCallback E wk
         else AsyncWorker_HandleErrorCallback wk) ;;
  ret (set_w_callback None wk).

(** [Nan::AsyncWorker::Destroy]: [delete this].  The destructor of the
    base class, which runs next, only drops what Nan itself allocated (the
    callback, the copy of the message, the persistent handles). *)
Definition AsyncWorker_Destroy (wk : NodeUnboundWorker) : M unit :=
  NodeUnboundWorker_dtor wk ;; ret tt.

(** [v8::Local<v8::Value>::As<v8::Function>] after [IsFunction]. *)
Definition As_Function (v : js_value) : option nat :=
  match v with JFunction f => Some f | _ => None end.

Definition NodeUnbound_Resolve (E : Engine) (ub : NodeUnbound)
    (info : FunctionCallbackInfo) : M js_value :=
  if negb (Length info =? 4) then
    ThrowError "unbound.resolve() requires arguments."
  else if negb (IsString (info_at info 0)) then
    ThrowTypeError "First argument must be a string."
  else if negb (IsNumber (info_at info 1)) then
    ThrowTypeError "Second argument must be a number."
  else if negb (IsNumber (info_at info 2)) then
    ThrowTypeError "Third argument must be a number."
  else if negb (IsFunction (info_at info 3)) then
    ThrowTypeError "Fourth argument must be a function."
  else
    let name := Utf8String (info_at info 0) in
    rrtype <- FromJust (To_uint32 (info_at info 1)) ;;
    rrclass <- FromJust (To_uint32 (info_at info 2)) ;;
    callback <- FromJust (As_Function (info_at info 3)) ;;
    qname <- strdup E name ;;
    if negb (bool_decide (is_Some qname)) then
      ThrowTypeError "Could not allocate memory."
    else
      let worker := NodeUnboundWorker_ctor (ctx ub) qname
                      (int_of_uint32 rrtype) (int_of_uint32 rrclass)
                      callback in
      let _this := JObject (This info) in
      let worker := set_w_persistent
                      (("unbound", _this) :: w_persistent worker) worker in
      AsyncQueueWorker worker ;;
      ret (JObject (This info)).

(** *** The runtime around the binding *)

(** The weak callback of [Nan::ObjectWrap]: when the JS object is collected
    the native object is deleted, which runs [~NodeUnbound]. *)
Definition finalize (this : nat) : M unit :=
  fun w =>
    match wrapped w !! this with
    | Some ub =>
        (NodeUnbound_dtor ub ;;
         (fun w' => (Ok tt, set_wrapped (delete this (wrapped w')) w'))) w
    | None => (Ok tt, w)
    end.

(** One task from the thread pool to its end: [Execute] on a pool thread,
    then [WorkComplete] and [Destroy] back on the loop thread
    ([Nan::AsyncExecute], [Nan::AsyncExecuteComplete]). *)
Definition run_task (E : Engine) (wk : NodeUnboundWorker) : M unit :=
  wk <- NodeUnboundWorker_Execute E wk ;;
  wk <- AsyncWorker_WorkComplete E wk ;;
  AsyncWorker_Destroy wk.

(** The pool takes the [i]-th queued worker and runs it. *)
Definition run_queued (E : Engine) (i : nat) : M unit :=
  fun w =>
    match queue w !! i with
    | Some wk => run_task E wk (set_queue (delete i (queue w)) w)
    | None => (Ok tt, w)
    end.

(** Destroying a handle [n] times in a row. *)
Fixpoint destroy_times (n : nat) (ub : NodeUnbound) : M NodeUnbound :=
  match n with
  | O => ret ub
  | S n' => ub' <- NodeUnbound_dtor ub ;; destroy_times n' ub'
  end.

(** ** Reading a trace *)

Definition count (f : event -> bool) (t : list event) : nat :=
  length (List.filter f t).

Definition is_free_of (p : nat) (e : event) : bool :=
  match e with ev_free q => bool_decide (p = q) | _ => false end.

Definition is_free (e : event) : bool :=
  match e with ev_free _ => true | _ => false end.

Definition is_strdup (e : event) : bool :=
  match e with ev_strdup _ _ => true | _ => false end.

Definition is_ub_resolve (e : event) : bool :=
  match e with ev_ub_resolve _ _ _ _ => true | _ => false end.

Definition is_ub_resolve_free (e : event) : bool :=
  match e with ev_ub_resolve_free _ => true | _ => false end.

Definition is_ub_ctx_delete (e : event) : bool :=
  match e with ev_ub_ctx_delete _ => true | _ => false end.

Definition is_callback (e : event) : bool :=
  match e with ev_callback _ _ => true | _ => false end.

(** ** The vocabulary of the statements *)

(** The thirteen configuration methods that forward one parameter set and
    read a status back. *)
Definition config_methods
  : list (Engine -> NodeUnbound -> FunctionCallbackInfo -> M js_value) :=
  [ NodeUnbound_SetOption; NodeUnbound_SetConfig; NodeUnbound_SetForward;
    NodeUnbound_SetStub; NodeUnbound_SetResolvConf; NodeUnbound_SetHosts;
    NodeUnbound_AddTrustAnchor; NodeUnbound_AddTrustAnchorFile;
    NodeUnbound_AddTrustedKeys; NodeUnbound_AddZone; NodeUnbound_RemoveZone;
    NodeUnbound_AddData; NodeUnbound_RemoveData ].

(** Either the arguments are refused and nothing is asked of the engine, or
    exactly one engine call is made and its status decides the outcome: zero
    returns the receiver, anything else throws the translated message. *)
Definition forwards_status (E : Engine) (m : M js_value) (this : nat)
    (w : world) : Prop :=
  (exists e, m w = (Throw e, w)) \/
  (exists call,
      let err := ub_status E (trace w) call in
      m w = (if err =? 0 then Ok (JObject this)
             else Throw (Error (nu_strerror E err)),
             set_trace (trace w ++ [ev_ub call]) w)).

(** The message [nu_strerror] composes from what the engine has for [err]. *)
Definition translated (E : Engine) (err : Z) : string :=
  match ub_strerror E err with
  | Some s => if (String.length s <=? 256)%nat then "libunbound: " +:+ s
              else "libunbound: unknown error"
  | None => "libunbound: unknown error"
  end.

(** Truncation, read literally: the message is the prefix followed by the
    engine's string, cut short when it is long. *)
Definition prefixed_or_truncated (E : Engine) (err : Z) : Prop :=
  match ub_strerror E err with
  | Some s => exists k : nat,
      nu_strerror E err = "libunbound: " +:+ substring 0 k s
  | None => True
  end.

(** *** Creation of a handle *)

(** The statuses of the two setup calls that follow a successful
    [ub_ctx_create], and the trace after each. *)
Definition debugout_trace (w : world) (c : ub_ctx) : list event :=
  trace w ++ [ev_ub_ctx_create; ev_ub (ub_ctx_debugout (Some c) None)].

Definition debuglevel_trace (w : world) (c : ub_ctx) : list event :=
  debugout_trace w c ++ [ev_ub (ub_ctx_debuglevel (Some c) 0)].

Definition debugout_status (E : Engine) (w : world) (c : ub_ctx) : Z :=
  ub_status E (trace w ++ [ev_ub_ctx_create]) (ub_ctx_debugout (Some c) None).

Definition debuglevel_status (E : Engine) (w : world) (c : ub_ctx) : Z :=
  ub_status E (debugout_trace w c) (ub_ctx_debuglevel (Some c) 0).

(** The world once [this] wraps a handle on [c] and the trace is [t]. *)
Definition holding (this : nat) (c : ub_ctx) (t : list event) (w : world)
  : world :=
  {| heap := heap w;
     wrapped := <[this := {| ctx := Some c |}]> (wrapped w);
     queue := queue w;
     trace := t |}.

(** *** Submission *)

(** The four argument checks of [resolve], in one. *)
Definition well_typed_resolve (info : FunctionCallbackInfo) : bool :=
  (Length info =? 4)
  && IsString (info_at info 0)
  && IsNumber (info_at info 1)
  && IsNumber (info_at info 2)
  && IsFunction (info_at info 3).

(** The worker [resolve] builds for a well-typed call once the name copy
    sits at [p]. *)
Definition submitted_worker (ub : NodeUnbound) (info : FunctionCallbackInfo)
    (p : nat) : option NodeUnboundWorker :=
  rrtype ← To_uint32 (info_at info 1);
  rrclass ← To_uint32 (info_at info 2);
  callback ← As_Function (info_at info 3);
  Some {| w_callback := Some callback; w_errmsg := None;
          w_persistent := [("unbound", JObject (This info))];
          w_ctx := ctx ub; w_name := Some p;
          w_rrtype := int_of_uint32 rrtype;
          w_rrclass := int_of_uint32 rrclass;
          w_result := None |}.

(** A worker as [NodeUnbound_Resolve] leaves it in the queue: the name
    copy is live, nothing has run yet. *)
Record queued (wk : NodeUnboundWorker) (w : world) (p : nat) (s : string)
    (f : nat) : Prop := {
  queued_name : w_name wk = Some p;
  queued_live : heap w !! p = Some s;
  queued_callback : w_callback wk = Some f;
  queued_errmsg : w_errmsg wk = None;
  queued_result : w_result wk = None
}.

(** *** One task, step by step *)

(** The number of bytes [HandleOKCallback] asks [CopyBuffer] for: the
    engine's [int] length seen as a [size_t], then as a [uint32_t]. *)
Definition copy_size (r : ub_result) : Z :=
  (answer_len r mod 2 ^ 64) mod 2 ^ 32.

Definition copy_ok (r : ub_result) : bool :=
  negb (kMaxLength <? copy_size r)
  && negb (Z.of_nat (length (answer_packet r)) <? copy_size r).

(** The fourth element of the answer. *)
Definition reason_of (E : Engine) (r : ub_result) : js_value :=
  match bool_of_int (bogus r), why_bogus r with
  | true, Some why => JString (New_v8_String E why)
  | _, _ => JNull
  end.

(** The value handed to the completion callback on success. *)
Definition answer_of (E : Engine) (r : ub_result) : js_value :=
  JArray [ JBuffer (take (Z.to_nat (copy_size r)) (answer_packet r));
           JBoolean (bool_of_int (secure r));
           JBoolean (bool_of_int (bogus r));
           reason_of E r ].

(** What the pool, the loop and the destructor ask for while one task
    runs, by the engine's answer [(err, r)] to the resolve call. *)
Definition task_events (E : Engine) (wk : NodeUnboundWorker) (p : nat)
    (s : string) (f : nat) (err : Z) (r : option ub_result) : list event :=
  ev_ub_resolve (w_ctx wk) s (w_rrtype wk) (w_rrclass wk) ::
  if err =? 0 then
    match r with
    | Some res => [ev_ub_resolve_free res;
                   ev_callback f [JNull; answer_of E res]; ev_free p]
    | None => []
    end
  else
    [ev_callback f [JException (Error (nu_strerror E err))]; ev_free p]
    ++ match r with Some res => [ev_ub_resolve_free res] | None => [] end.

(** The task comes to its end unless the engine reports success without a
    readable result. *)
Definition completes (err : Z) (r : option ub_result) : bool :=
  if err =? 0 then match r with Some res => copy_ok res | None => false end
  else true.

(** The engine's side of the resolve interface: a status of zero comes with
    a result, any other status with none. *)
Definition resolve_contract (err : Z) (r : option ub_result) : Prop :=
  err = 0 <-> is_Some r.

Definition releases (r : option ub_result) : nat :=
  match r with Some _ => 1%nat | None => 0%nat end.

#[global] Instance byte_eq_decision : EqDecision byte := Byte.byte_eq_dec.

#[global] Instance ub_result_eq_decision : EqDecision ub_result.
Proof. solve_decision. Defined.

Definition is_release_of (r : option ub_result) (e : event) : bool :=
  match e, r with
  | ev_ub_resolve_free x, Some res => bool_decide (x = res)
  | _, _ => false
  end.

(** Every place where the binding turns a nonzero engine status into an
    error for the caller uses [nu_strerror] of that status: the thirteen
    configuration methods, [getOption], the two setup calls of the
    constructor, and the resolve task (whose error reaches the callback). *)
Definition status_surfaced (E : Engine) : Prop :=
  (forall ub info w,
      Forall (fun m => forwards_status E (m E ub info) (This info) w)
             config_methods)
  /\ (forall ub info w,
         Length info = 1 -> IsString (info_at info 0) = true ->
         let err := fst (ub_ctx_get_option E (trace w) (ctx ub)
                           (Utf8String (info_at info 0))) in
         err <> 0 ->
         fst (NodeUnbound_GetOption E ub info w)
         = Throw (Error (nu_strerror E err)))
  /\ (forall info w c,
         IsConstructCall info = true -> ub_ctx_create E (trace w) = Some c ->
         (debugout_status E w c <> 0 ->
          fst (NodeUnbound_New E info w)
          = Throw (Error (nu_strerror E (debugout_status E w c))))
         /\ (debugout_status E w c = 0 -> debuglevel_status E w c <> 0 ->
             fst (NodeUnbound_New E info w)
             = Throw (Error (nu_strerror E (debuglevel_status E w c)))))
  /\ (forall wk w p s f,
         queued wk w p s f ->
         let err := fst (ub_resolve E (trace w) (w_ctx wk) s
                           (w_rrtype wk) (w_rrclass wk)) in
         err <> 0 ->
         exists w',
           run_task E wk w = (Ok tt, w')
           /\ List.filter is_callback (trace w')
              = List.filter is_callback (trace w)
                ++ [ev_callback f [JException (Error (nu_strerror E err))]]).

(** ** Concrete engines, calls and worlds *)

(** A UTF-8 decoder for the concrete engines, seen on the bytes of the JS
    string it gives: a well-formed sequence (Unicode, table 3-7) is kept,
    and each maximal part of an ill-formed one becomes U+FFFD, the bytes
    EF BF BD. *)
Definition in_range (lo hi : nat) (a : ascii) : bool :=
  (lo <=? nat_of_ascii a)%nat && (nat_of_ascii a <=? hi)%nat.

Definition continuation (a : ascii) : bool := in_range 128 191 a.

(** The second byte a lead byte of three or four bytes admits. *)
Definition second_byte (lead a : ascii) : bool :=
  let n := nat_of_ascii lead in
  if (n =? 224)%nat then in_range 160 191 a
  else if (n =? 237)%nat then in_range 128 159 a
  else if (n =? 240)%nat then in_range 144 191 a
  else if (n =? 244)%nat then in_range 128 143 a
  else in_range 128 191 a.

Definition replacement : string :=
  String (ascii_of_nat 239) (String (ascii_of_nat 191)
    (String (ascii_of_nat 189) EmptyString)).

Fixpoint utf8_decode (s : string) : string :=
  match s with
  | EmptyString => EmptyString
  | String b0 rest =>
      if in_range 0 127 b0 then String b0 (utf8_decode rest)
      else if in_range 194 223 b0 then
        match rest with
        | String b1 r1 =>
            if continuation b1
            then String b0 (String b1 (utf8_decode r1))
            else replacement +:+ utf8_decode rest
        | EmptyString => replacement
        end
      else if in_range 224 239 b0 then
        match rest with
        | String b1 r1 =>
            if second_byte b0 b1 then
              match r1 with
              | String b2 r2 =>
                  if continuation b2
                  then String b0 (String b1 (String b2 (utf8_decode r2)))
                  else replacement +:+ utf8_decode r1
              | EmptyString => replacement
              end
            else replacement +:+ utf8_decode rest
        | EmptyString => replacement
        end
      else if in_range 240 244 b0 then
        match rest with
        | String b1 r1 =>
            if second_byte b0 b1 then
              match r1 with
              | String b2 r2 =>
                  if continuation b2 then
                    match r2 with
                    | String b3 r3 =>
                        if continuation b3
                        then String b0 (String b1 (String b2
                               (String b3 (utf8_decode r3))))
                        else replacement +:+ utf8_decode r2
                    | EmptyString => replacement
                    end
                  else replacement +:+ utf8_decode r1
              | EmptyString => replacement
              end
            else replacement +:+ utf8_decode rest
        | EmptyString => replacement
        end
      else replacement +:+ utf8_decode rest
  end.

Fixpoint is_ascii (s : string) : bool :=
  match s with
  | EmptyString => true
  | String a rest => in_range 0 127 a && is_ascii rest
  end.

(** An engine whose every error string is [s]. *)
Definition engine_saying (s : string) : Engine :=
  {| ub_strerror := fun _ => Some s;
     ub_version := "1.9.0";
     ub_ctx_create := fun _ => Some 1%nat;
     ub_status := fun _ _ => 5;
     ub_ctx_get_option := fun _ _ _ => (5, None);
     ub_resolve := fun _ _ _ _ _ => (5, None);
     malloc_ok := fun _ _ => true;
     New_v8_String := utf8_decode |}.

Fixpoint repeat_char (a : ascii) (n : nat) : string :=
  match n with
  | O => EmptyString
  | S n' => String a (repeat_char a n')
  end.

Definition empty_world : world :=
  {| heap := ∅; wrapped := ∅; queue := []; trace := [] |}.

Definition fixed_result : ub_result :=
  {| answer_packet := [x01; x02; x03];
     answer_len := 3;
     secure := 1;
     bogus := 0;
     why_bogus := None |}.

(** An engine that accepts everything and answers every query with
    [fixed_result]. *)
Definition stub_engine : Engine :=
  {| ub_strerror := fun _ => Some "no error";
     ub_version := "1.9.0";
     ub_ctx_create := fun _ => Some 1%nat;
     ub_status := fun _ _ => 0;
     ub_ctx_get_option := fun _ _ _ => (0, Some "yes");
     ub_resolve := fun _ _ _ _ _ => (0, Some fixed_result);
     malloc_ok := fun _ _ => true;
     New_v8_String := utf8_decode |}.

Definition handle : NodeUnbound := {| ctx := Some 1%nat |}.

Definition method_call (argv : list js_value) : FunctionCallbackInfo :=
  {| This := 7%nat; IsConstructCall := false; args := argv |}.

Definition one : js_value := JNumber (num_fin 1%Q).

(** A queued worker for [resolve("example.test", 1, 1, cb)] and the world
    that holds its name copy. *)
Definition stub_worker : NodeUnboundWorker :=
  {| w_callback := Some 3%nat; w_errmsg := None;
     w_persistent := [("unbound", JObject 7)];
     w_ctx := Some 1%nat; w_name := Some 0%nat;
     w_rrtype := 1; w_rrclass := 1; w_result := None |}.

Definition stub_world : world :=
  {| heap := {[ 0%nat := "example.test" ]}; wrapped := ∅; queue := [];
     trace := [ev_strdup "example.test" 0] |}.

(** An engine that answers every query with status [err] and leaves [r]
    behind [&result]. *)
Definition engine_resolving (err : Z) (r : option ub_result) : Engine :=
  {| ub_strerror := fun _ => Some "syntax error";
     ub_version := "1.9.0";
     ub_ctx_create := fun _ => Some 1%nat;
     ub_status := fun _ _ => 0;
     ub_ctx_get_option := fun _ _ _ => (0, None);
     ub_resolve := fun _ _ _ _ _ => (err, r);
     malloc_ok := fun _ _ => true;
     New_v8_String := utf8_decode |}.

(** A bogus result whose packet of three bytes lies in a readable region
    of five, and whose diagnostic is not well-formed UTF-8: ["no"], the
    byte FF, ["key"]. *)
Definition bogus_result : ub_result :=
  {| answer_packet := [x01; x02; x03; xee; xee];
     answer_len := 3;
     secure := 0;
     bogus := 1;
     why_bogus := Some ("no" +:+ String (ascii_of_nat 255) "key") |}.

(** An engine whose option values are the bytes 79 FF 73. *)
Definition engine_with_option : Engine :=
  {| ub_strerror := fun _ => Some "no error";
     ub_version := "1.9.0";
     ub_ctx_create := fun _ => Some 1%nat;
     ub_status := fun _ _ => 0;
     ub_ctx_get_option :=
       fun _ _ _ => (0, Some ("y" +:+ String (ascii_of_nat 255) "s"));
     ub_resolve := fun _ _ _ _ _ => (0, Some fixed_result);
     malloc_ok := fun _ _ => true;
     New_v8_String := utf8_decode |}.

(** ** What the methods check and forward *)

(** The kinds of argument the methods ask for. *)
Inductive arg_kind := a_string | a_number | a_boolean | a_function.

Definition has_kind (k : arg_kind) (v : js_value) : bool :=
  match k with
  | a_string => IsString v
  | a_number => IsNumber v
  | a_boolean => IsBoolean v
  | a_function => IsFunction v
  end.

Definition kind_name (k : arg_kind) : string :=
  match k with
  | a_string => "string"
  | a_number => "number"
  | a_boolean => "boolean"
  | a_function => "function"
  end.

Definition ordinal (i : nat) : string :=
  match i with
  | 0%nat => "First"
  | 1%nat => "Second"
  | 2%nat => "Third"
  | _ => "Fourth"
  end.

(** The first position, from [i] on, whose argument is not of the kind the
    signature asks for there. *)
Fixpoint first_mistyped (sig : list arg_kind) (i : nat)
    (info : FunctionCallbackInfo) : option (nat * arg_kind) :=
  match sig with
  | [] => None
  | k :: rest => if has_kind k (info_at info i)
                 then first_mistyped rest (S i) info
                 else Some (i, k)
  end.

(** The error a call of the method [name] with signature [sig] deserves
    for its arguments alone: the arity first, then the first mistyped
    position. *)
Definition argument_error (name : string) (sig : list arg_kind)
    (info : FunctionCallbackInfo) : option js_error :=
  if negb (Length info =? Z.of_nat (length sig)) then
    Some (Error ("unbound." +:+ name +:+ "() requires arguments."))
  else
    match first_mistyped sig 0 info with
    | Some (i, k) =>
        Some (TypeError (ordinal i +:+ " argument must be a "
                         +:+ kind_name k +:+ "."))
    | None => None
    end.

(** The configuration methods under their JS names, with the arguments
    each validates. *)
Definition config_table
  : list (string * list arg_kind
          * (Engine -> NodeUnbound -> FunctionCallbackInfo -> M js_value)) :=
  [ ("setOption", [a_string; a_string], NodeUnbound_SetOption);
    ("setConfig", [a_string], NodeUnbound_SetConfig);
    ("setForward", [a_string], NodeUnbound_SetForward);
    ("setStub", [a_string; a_string; a_boolean], NodeUnbound_SetStub);
    ("setResolvConf", [a_string], NodeUnbound_SetResolvConf);
    ("setHosts", [a_string], NodeUnbound_SetHosts);
    ("addTrustAnchor", [a_string], NodeUnbound_AddTrustAnchor);
    ("addTrustAnchorFile", [a_string; a_boolean],
     NodeUnbound_AddTrustAnchorFile);
    ("addTrustedKeys", [a_string], NodeUnbound_AddTrustedKeys);
    ("addZone", [a_string; a_string], NodeUnbound_AddZone);
    ("removeZone", [a_string], NodeUnbound_RemoveZone);
    ("addData", [a_string], NodeUnbound_AddData);
    ("removeData", [a_string], NodeUnbound_RemoveData) ].

(** The context an engine call is made on. *)
Definition call_ctx (call : ub_call) : option ub_ctx :=
  match call with
  | ub_ctx_debugout c _ | ub_ctx_debuglevel c _ | ub_ctx_set_option c _ _
  | ub_ctx_config c _ | ub_ctx_set_fwd c _ | ub_ctx_set_stub c _ _ _
  | ub_ctx_resolvconf c _ | ub_ctx_hosts c _ | ub_ctx_add_ta c _
  | ub_ctx_add_ta_autr c _ | ub_ctx_add_ta_file c _ | ub_ctx_trustedkeys c _
  | ub_ctx_zone_add c _ _ | ub_ctx_zone_remove c _ | ub_ctx_data_add c _
  | ub_ctx_data_remove c _ => c
  end.

(** The strings an engine call carries, in the order of its parameters. *)
Definition call_strings (call : ub_call) : list string :=
  match call with
  | ub_ctx_debugout _ _ | ub_ctx_debuglevel _ _ => []
  | ub_ctx_set_option _ opt val => [opt; val]
  | ub_ctx_set_stub _ zone addr _ => [zone; addr]
  | ub_ctx_zone_add _ zone_name zone_type => [zone_name; zone_type]
  | ub_ctx_config _ s | ub_ctx_set_fwd _ s | ub_ctx_resolvconf _ s
  | ub_ctx_hosts _ s | ub_ctx_add_ta _ s | ub_ctx_add_ta_autr _ s
  | ub_ctx_add_ta_file _ s | ub_ctx_trustedkeys _ s
  | ub_ctx_zone_remove _ s | ub_ctx_data_add _ s
  | ub_ctx_data_remove _ s => [s]
  end.

(** What a validated configuration call does: one engine call, on the
    handle's own context, carrying the C strings of the call's string
    arguments in order; status zero returns the receiver, any other status
    throws its translated message. *)
Definition forwards_own (E : Engine) (ub : NodeUnbound)
    (info : FunctionCallbackInfo) (m : M js_value) (w : world) : Prop :=
  exists call,
    call_ctx call = ctx ub
    /\ call_strings call = Utf8String <$> List.filter IsString (args info)
    /\ let err := ub_status E (trace w) call in
       m w = (if err =? 0 then Ok (JObject (This info))
              else Throw (Error (nu_strerror E err)),
              set_trace (trace w ++ [ev_ub call]) w).

(** The outcome of one configuration call, by its arguments. *)
Definition config_outcome (E : Engine) (ub : NodeUnbound)
    (info : FunctionCallbackInfo) (w : world)
    (entry : string * list arg_kind
             * (Engine -> NodeUnbound -> FunctionCallbackInfo -> M js_value))
  : Prop :=
  let '(name, sig, m) := entry in
  match argument_error name sig info with
  | Some e => m E ub info w = (Throw e, w)
  | None => forwards_own E ub info (m E ub info) w
  end.

(** Whether a string has a NUL character. *)
Fixpoint has_nul (s : string) : bool :=
  match s with
  | EmptyString => false
  | String a rest => Ascii.eqb a Ascii.zero || has_nul rest
  end.

(** A script of configuration calls on one handle, each run to its
    outcome, thrown or not, before the next. *)
Fixpoint run_calls (E : Engine) (ub : NodeUnbound)
    (calls : list ((Engine -> NodeUnbound -> FunctionCallbackInfo
                    -> M js_value) * FunctionCallbackInfo))
    (w : world) : world :=
  match calls with
  | [] => w
  | (m, info) :: rest => run_calls E ub rest (snd (m E ub info w))
  end.

Definition is_ub (e : event) : bool :=
  match e with ev_ub _ => true | _ => false end.

(** An engine under which every task comes to its end. *)
Definition always_completes (E : Engine) : Prop :=
  forall t c s rrtype rrclass,
    completes (fst (ub_resolve E t c s rrtype rrclass))
              (snd (ub_resolve E t c s rrtype rrclass)) = true.

(** An allocator that never runs out of memory. *)
Definition never_out_of_memory (E : Engine) : Prop :=
  forall t s, malloc_ok E t s = true.

(** A name with a NUL character in it: ["a.test"], NUL, ["evil"]. *)
Definition name_with_nul : string :=
  "a.test" +:+ String Ascii.zero "evil".

(** ** Proof steps *)

Ltac nu_unfold :=
  unfold bind, ret, throw, abort, ThrowError, ThrowTypeError, engine, emit,
    FromJust, assert, To_bool.

(** The argument checks of a method, one case per check: the failing case
    throws in place, the passing case goes on. *)
Ltac split_checks :=
  repeat match goal with
         | |- context [if negb ?b then _ else _] =>
             lazymatch b with
             | Z.eqb (ub_status _ _ _) 0 => fail
             | _ => destruct b eqn:?; cbn [negb];
                    [|left; eexists; reflexivity]
             end
         end.

Ltac by_status :=
  nu_unfold; simpl;
  match goal with |- context [ev_ub ?c] => exists c end; simpl;
  match goal with
  | |- context [ub_status ?E ?t ?c =? 0] =>
      destruct (ub_status E t c =? 0); reflexivity
  end.

(** The actual arguments of a call of known arity, one by one. *)
Ltac shape_args info Hlen :=
  let t := fresh "this" in
  let c := fresh "construct" in
  let a := fresh "argv" in
  destruct info as [t c a];
  unfold Length in Hlen; cbn [args] in Hlen;
  destruct a as [|? [|? [|? [|? [|? ?]]]]]; cbn [length] in Hlen; try lia.

Ltac forwarded :=
  unfold forwards_own; nu_unfold; simpl;
  match goal with |- context [ev_ub ?c] => exists c end;
  split; [reflexivity|]; split; [reflexivity|]; simpl;
  match goal with
  | |- context [ub_status ?E ?t ?c =? 0] =>
      destruct (ub_status E t c =? 0); reflexivity
  end.

Ltac one_argument :=
  match goal with
  | v : js_value |- _ => destruct v; simpl; try reflexivity
  end.

(** * Properties *)

(** ** Strings, traces and blocks *)

Lemma string_length_append (a b : string) :
  String.length (a +:+ b) = (String.length a + String.length b)%nat.
Proof. induction a as [|c a IH]; simpl; [reflexivity | now rewrite IH]. Qed.

Lemma count_app (f : event -> bool) (a b : list event) :
  count f (a ++ b) = (count f a + count f b)%nat.
Proof. unfold count. now rewrite List.filter_app, length_app. Qed.

Lemma info_at_beyond (info : FunctionCallbackInfo) (i : nat) :
  Length info <= Z.of_nat i -> info_at info i = JUndefined.
Proof.
  unfold Length, info_at. intros H. apply nth_overflow. lia.
Qed.

Lemma fresh_block_unused (h : gmap nat string) : h !! fresh (dom h) = None.
Proof. apply not_elem_of_dom, is_fresh. Qed.

Lemma free_fresh_block (h : gmap nat string) (s : string) :
  delete (fresh (dom h)) (<[fresh (dom h) := s]> h) = h.
Proof. apply delete_insert_id, fresh_block_unused. Qed.

(** The decoder of the concrete engines keeps a string of ASCII bytes, and
    puts one U+FFFD for a byte that cannot start or continue a sequence. *)
Lemma utf8_decode_ascii (s : string) :
  is_ascii s = true -> utf8_decode s = s.
Proof.
  induction s as [|a s IH]; [reflexivity|]. simpl.
  destruct (in_range 0 127 a); [|discriminate].
  simpl. intros H. now rewrite IH.
Qed.

Lemma utf8_decode_stray_byte :
  utf8_decode ("y" +:+ String (ascii_of_nat 255) "s")
  = "y" +:+ replacement +:+ "s".
Proof. reflexivity. Qed.

(** ** The error message *)

Lemma nu_strerror_translated (E : Engine) (err : Z) :
  nu_strerror E err = translated E err.
Proof.
  unfold nu_strerror, translated.
  destruct (ub_strerror E err) as [s|]; [|reflexivity].
  destruct (Z.ltb_spec 256 (Z.of_nat (String.length s))) as [Hlong|Hshort];
    destruct (Nat.leb_spec (String.length s) 256) as [Hle|Hgt];
    try reflexivity; lia.
Qed.

Lemma nu_strerror_fits (E : Engine) (err : Z) :
  Z.of_nat (String.length (nu_strerror E err)) < errmsg_size.
Proof.
  rewrite nu_strerror_translated. unfold translated, errmsg_size.
  destruct (ub_strerror E err) as [s|]; [|simpl; lia].
  destruct (Nat.leb_spec (String.length s) 256) as [Hle|Hgt]; [|simpl; lia].
  rewrite string_length_append. simpl String.length. lia.
Qed.

(** ** The methods, run *)

Lemma config_methods_forward (E : Engine) (ub : NodeUnbound)
    (info : FunctionCallbackInfo) (w : world) :
  Forall (fun m => forwards_status E (m E ub info) (This info) w)
         config_methods.
Proof.
  unfold config_methods.
  repeat (apply Forall_cons_2); try apply Forall_nil_2;
    unfold forwards_status, NodeUnbound_SetOption, NodeUnbound_SetConfig,
      NodeUnbound_SetForward, NodeUnbound_SetStub, NodeUnbound_SetResolvConf,
      NodeUnbound_SetHosts, NodeUnbound_AddTrustAnchor,
      NodeUnbound_AddTrustAnchorFile, NodeUnbound_AddTrustedKeys,
      NodeUnbound_AddZone, NodeUnbound_RemoveZone, NodeUnbound_AddData,
      NodeUnbound_RemoveData;
    split_checks; right.
  all: try by_status.
  (* addTrustAnchorFile: the flag is read from [info[2]] *)
  rewrite (info_at_beyond info 2) by lia. by_status.
Qed.

(** Whatever the flag, a call that passes validation takes the plain file
    variant. *)
Lemma addTrustAnchorFile_ignores_flag (E : Engine) (ub : NodeUnbound)
    (info : FunctionCallbackInfo) (w : world) :
  Length info = 2 ->
  IsString (info_at info 0) = true ->
  IsBoolean (info_at info 1) = true ->
  trace (snd (NodeUnbound_AddTrustAnchorFile E ub info w))
  = trace w ++ [ev_ub (ub_ctx_add_ta_file (ctx ub)
                         (Utf8String (info_at info 0)))].
Proof.
  intros Hlen Hs Hb. unfold NodeUnbound_AddTrustAnchorFile.
  rewrite Hlen, Hs, Hb, (info_at_beyond info 2) by lia.
  nu_unfold. simpl.
  destruct (ub_status E (trace w) _ =? 0); reflexivity.
Qed.

(** [getOption] on a well-typed call, by what the engine answers. *)
Lemma GetOption_run (E : Engine) (ub : NodeUnbound)
    (info : FunctionCallbackInfo) (w : world) :
  Length info = 1 -> IsString (info_at info 0) = true ->
  let opt := Utf8String (info_at info 0) in
  let t1 := trace w ++ [ev_ub_ctx_get_option (ctx ub) opt] in
  let p := fresh (dom (heap w)) in
  NodeUnbound_GetOption E ub info w =
  match ub_ctx_get_option E (trace w) (ctx ub) opt with
  | (err, None) =>
      (if err =? 0 then Ok JNull else Throw (Error (nu_strerror E err)),
       set_trace t1 w)
  | (err, Some s) =>
      if err =? 0
      then (Ok (JString (New_v8_String E s)), set_trace (t1 ++ [ev_free p]) w)
      else (Throw (Error (nu_strerror E err)),
            set_heap (<[p := s]> (heap w)) (set_trace t1 w))
  end.
Proof.
  intros Hlen Hstr. unfold NodeUnbound_GetOption.
  rewrite Hlen, Hstr. simpl.
  unfold bind, call_ub_ctx_get_option.
  destruct (ub_ctx_get_option E (trace w) (ctx ub)
              (Utf8String (info_at info 0))) as [err [s|]];
    destruct (err =? 0); simpl; try reflexivity.
  unfold New_String, free, bind, ret. simpl.
  rewrite lookup_insert_eq. simpl. rewrite lookup_insert_eq.
  rewrite free_fresh_block. destruct w; reflexivity.
Qed.

Lemma New_run (E : Engine) (info : FunctionCallbackInfo) (w : world)
    (c : ub_ctx) :
  IsConstructCall info = true ->
  ub_ctx_create E (trace w) = Some c ->
  NodeUnbound_New E info w =
  if negb (debugout_status E w c =? 0) then
    (Throw (Error (nu_strerror E (debugout_status E w c))),
     holding (This info) c (debugout_trace w c) w)
  else if negb (debuglevel_status E w c =? 0) then
    (Throw (Error (nu_strerror E (debuglevel_status E w c))),
     holding (This info) c (debuglevel_trace w c) w)
  else
    (Ok (JObject (This info)),
     holding (This info) c (debuglevel_trace w c) w).
Proof.
  intros Hnew Hcreate.
  unfold NodeUnbound_New, debugout_status, debuglevel_status, holding,
    debuglevel_trace, debugout_trace.
  rewrite Hnew. unfold bind, Wrap, assign_ctx, call_ub_ctx_create. simpl.
  rewrite Hcreate. nu_unfold. simpl.
  rewrite insert_insert_eq, <- !app_assoc. simpl.
  destruct (ub_status E (trace w ++ [ev_ub_ctx_create]) _ =? 0); simpl;
    [|reflexivity].
  rewrite <- ?app_assoc. simpl.
  destruct (ub_status E _ (ub_ctx_debuglevel (Some c) 0) =? 0); reflexivity.
Qed.

Lemma finalize_holding (this : nat) (c : ub_ctx) (t : list event)
    (w : world) :
  finalize this (holding this c t w) =
  (Ok tt, {| heap := heap w; wrapped := delete this (wrapped w);
             queue := queue w; trace := t ++ [ev_ub_ctx_delete c] |}).
Proof.
  unfold finalize, holding. simpl. rewrite lookup_insert_eq.
  unfold NodeUnbound_dtor, call_ub_ctx_delete. nu_unfold. simpl.
  rewrite delete_insert_eq. reflexivity.
Qed.

Lemma dtor_released (w : world) :
  NodeUnbound_dtor {| ctx := None |} w = (Ok {| ctx := None |}, w).
Proof. reflexivity. Qed.

Lemma destroy_times_released (n : nat) (w : world) :
  destroy_times n {| ctx := None |} w = (Ok {| ctx := None |}, w).
Proof.
  induction n as [|n IH]; [reflexivity|].
  simpl. unfold bind. rewrite dtor_released. exact IH.
Qed.

Lemma Resolve_rejects (E : Engine) (ub : NodeUnbound)
    (info : FunctionCallbackInfo) (w : world) :
  well_typed_resolve info = false ->
  exists e, NodeUnbound_Resolve E ub info w = (Throw e, w).
Proof.
  unfold well_typed_resolve, NodeUnbound_Resolve. intros Hbad.
  destruct (Length info =? 4); [|eexists; reflexivity].
  destruct (IsString (info_at info 0)); [|eexists; reflexivity].
  destruct (IsNumber (info_at info 1)); [|eexists; reflexivity].
  destruct (IsNumber (info_at info 2)); [|eexists; reflexivity].
  destruct (IsFunction (info_at info 3)); [discriminate|eexists; reflexivity].
Qed.

Lemma Resolve_submits (E : Engine) (ub : NodeUnbound)
    (info : FunctionCallbackInfo) (w : world) :
  well_typed_resolve info = true ->
  let name := Utf8String (info_at info 0) in
  let p := fresh (dom (heap w)) in
  if malloc_ok E (trace w) name then
    exists wk,
      submitted_worker ub info p = Some wk /\
      NodeUnbound_Resolve E ub info w =
      (Ok (JObject (This info)),
       {| heap := <[p := name]> (heap w);
          wrapped := wrapped w;
          queue := queue w ++ [wk];
          trace := trace w ++ [ev_strdup name p] |})
  else
    NodeUnbound_Resolve E ub info w =
    (Throw (TypeError "Could not allocate memory."), w).
Proof.
  unfold well_typed_resolve, NodeUnbound_Resolve, submitted_worker.
  intros Hok.
  repeat (apply andb_prop in Hok; destruct Hok as [Hok ?]).
  rewrite Hok.
  destruct (info_at info 0) as [| | | |name| | | | |]; try discriminate.
  destruct (info_at info 1) as [| | |rrtype| | | | | |]; try discriminate.
  destruct (info_at info 2) as [| | |rrclass| | | | | |]; try discriminate.
  destruct (info_at info 3) as [| | | | |callback| | | |]; try discriminate.
  simpl. unfold bind, strdup, AsyncQueueWorker. simpl.
  destruct (malloc_ok E (trace w) (c_str name)); [|reflexivity].
  eexists; split; reflexivity.
Qed.

(** [resolve] never brings the process down, and a throw leaves the world
    as it was. *)
Lemma Resolve_throw_before_work (E : Engine) (ub : NodeUnbound)
    (info : FunctionCallbackInfo) (w : world) :
  (exists e, NodeUnbound_Resolve E ub info w = (Throw e, w)) \/
  (exists w', NodeUnbound_Resolve E ub info w = (Ok (JObject (This info)), w')
              /\ length (queue w') = S (length (queue w))).
Proof.
  destruct (well_typed_resolve info) eqn:Hwt.
  - pose proof (Resolve_submits E ub info w Hwt) as H. simpl in H.
    destruct (malloc_ok E (trace w) (Utf8String (info_at info 0))).
    + destruct H as (wk & _ & ->). right. eexists; split; [reflexivity|].
      simpl. rewrite length_app. simpl. lia.
    + left. eexists. exact H.
  - left. apply Resolve_rejects, Hwt.
Qed.

(** ** One task, run *)

Lemma Execute_run (E : Engine) (wk : NodeUnboundWorker) (w : world)
    (p : nat) (s : string) :
  w_name wk = Some p -> heap w !! p = Some s ->
  NodeUnboundWorker_Execute E wk w =
  (Ok (let '(err, result) :=
         ub_resolve E (trace w) (w_ctx wk) s (w_rrtype wk) (w_rrclass wk) in
       if err =? 0 then set_w_result result wk
       else SetErrorMessage (nu_strerror E err) (set_w_result result wk)),
   set_trace
     (trace w ++ [ev_ub_resolve (w_ctx wk) s (w_rrtype wk) (w_rrclass wk)])
     w).
Proof.
  intros Hname Hlive.
  unfold NodeUnboundWorker_Execute, bind, call_ub_resolve.
  rewrite Hname. simpl. rewrite Hlive.
  destruct (ub_resolve E (trace w) (w_ctx wk) s (w_rrtype wk) (w_rrclass wk))
    as [err result].
  destruct (err =? 0); reflexivity.
Qed.

Lemma HandleOKCallback_run (E : Engine) (wk : NodeUnboundWorker)
    (w : world) (r : ub_result) (f : nat) :
  w_result wk = Some r -> w_callback wk = Some f ->
  NodeUnboundWorker_HandleOKCallback E wk w =
  if copy_ok r then
    (Ok (set_w_result None wk),
     set_trace (trace w ++ [ev_ub_resolve_free r;
                            ev_callback f [JNull; answer_of E r]]) w)
  else (Abort, w).
Proof.
  intros Hres Hcb.
  unfold NodeUnboundWorker_HandleOKCallback, copy_ok, answer_of, reason_of,
    CopyBuffer, callback_Call, call_ub_resolve_free.
  rewrite Hres. nu_unfold. simpl. fold (copy_size r). rewrite Hcb.
  destruct (kMaxLength <? copy_size r); simpl; [reflexivity|].
  destruct (Z.of_nat (length (answer_packet r)) <? copy_size r); simpl;
    [reflexivity|].
  rewrite <- app_assoc. simpl.
  destruct (bool_of_int (bogus r)), (why_bogus r); reflexivity.
Qed.

Lemma run_task_run (E : Engine) (wk : NodeUnboundWorker) (w : world)
    (p : nat) (s : string) (f : nat) :
  queued wk w p s f ->
  let '(err, r) :=
    ub_resolve E (trace w) (w_ctx wk) s (w_rrtype wk) (w_rrclass wk) in
  run_task E wk w =
  if completes err r then
    (Ok tt, set_heap (delete p (heap w))
              (set_trace (trace w ++ task_events E wk p s f err r) w))
  else
    (Abort, set_trace (trace w ++ take 1 (task_events E wk p s f err r)) w).
Proof.
  intros [Hname Hlive Hcb Herr Hres].
  destruct (ub_resolve E (trace w) (w_ctx wk) s (w_rrtype wk) (w_rrclass wk))
    as [err r] eqn:Hub.
  unfold run_task, bind. rewrite (Execute_run E wk w p s Hname Hlive), Hub.
  unfold completes, task_events, AsyncWorker_WorkComplete, bind.
  destruct (err =? 0) eqn:Hz; cbn [take].
  - (* success reported *)
    simpl. rewrite Herr. simpl.
    destruct r as [res|].
    + rewrite (HandleOKCallback_run E _ _ res f)
        by (simpl; first [reflexivity | assumption]).
      destruct (copy_ok res); [|reflexivity].
      unfold AsyncWorker_Destroy, NodeUnboundWorker_dtor, free, bind, ret,
        call_ub_resolve_free, emit.
      simpl. rewrite Hname. simpl. rewrite Hlive. simpl.
      rewrite <- !app_assoc. reflexivity.
    + unfold NodeUnboundWorker_HandleOKCallback. nu_unfold. simpl.
      reflexivity.
  - (* failure reported *)
    simpl.
    unfold AsyncWorker_HandleErrorCallback, callback_Call. nu_unfold. simpl.
    rewrite Hcb.
    unfold AsyncWorker_Destroy, NodeUnboundWorker_dtor, free, bind, ret,
      call_ub_resolve_free, emit.
    simpl. rewrite Hname. simpl. rewrite Hlive. simpl.
    destruct r as [res|]; simpl; rewrite <- !app_assoc; reflexivity.
Qed.

Lemma copy_size_small (r : ub_result) :
  0 <= answer_len r <= kMaxLength -> copy_size r = answer_len r.
Proof.
  unfold copy_size, kMaxLength. intros H.
  change (2 ^ 64) with 18446744073709551616.
  change (2 ^ 32) with 4294967296.
  rewrite (Z.mod_small (answer_len r) 18446744073709551616) by lia.
  apply Z.mod_small. lia.
Qed.

Lemma task_events_release (E : Engine) (wk : NodeUnboundWorker) (p : nat)
    (s : string) (f : nat) (err : Z) (r : option ub_result) :
  completes err r = true ->
  let new := task_events E wk p s f err r in
  count (is_free_of p) new = 1%nat
  /\ count is_free new = 1%nat
  /\ count is_ub_resolve_free new = releases r
  /\ count (is_release_of r) new = releases r.
Proof.
  unfold completes, task_events, count. intros Hdone.
  destruct (err =? 0), r as [res|]; try discriminate; simpl;
    rewrite ?bool_decide_eq_true_2 by reflexivity;
    simpl; repeat split; reflexivity.
Qed.

(** A task that comes to its end calls the completion callback once. *)
Lemma task_delivers_once (E : Engine) (wk : NodeUnboundWorker) (p : nat)
    (s : string) (f : nat) (err : Z) (r : option ub_result) :
  completes err r = true ->
  count is_callback (task_events E wk p s f err r) = 1%nat.
Proof.
  unfold completes, task_events, count. intros Hdone.
  destruct (err =? 0), r as [res|]; try discriminate; reflexivity.
Qed.

Lemma stub_worker_queued : queued stub_worker stub_world 0 "example.test" 3.
Proof. constructor; reflexivity. Qed.

Lemma status_is_surfaced (E : Engine) : status_surfaced E.
Proof.
  repeat split.
  - apply config_methods_forward.
  - intros ub info w Hlen Hstr err Hne. subst err.
    rewrite (GetOption_run E ub info w Hlen Hstr).
    destruct (ub_ctx_get_option E (trace w) (ctx ub)
                (Utf8String (info_at info 0))) as [err [s|]];
      simpl in *; destruct (Z.eqb_spec err 0); simpl; congruence.
  - intros Hne. rewrite (New_run E info w c) by assumption.
    destruct (Z.eqb_spec (debugout_status E w c) 0); simpl; congruence.
  - intros Hz Hne. rewrite (New_run E info w c) by assumption.
    rewrite Hz. simpl.
    destruct (Z.eqb_spec (debuglevel_status E w c) 0); simpl; congruence.
  - intros wk w p s f Hq err Hne. subst err.
    pose proof (run_task_run E wk w p s f Hq) as Hrun.
    destruct (ub_resolve E (trace w) (w_ctx wk) s (w_rrtype wk) (w_rrclass wk))
      as [err r]. simpl in *.
    unfold completes, task_events in Hrun.
    destruct (Z.eqb_spec err 0); [congruence|].
    eexists; split; [exact Hrun|]. simpl.
    rewrite List.filter_app. simpl.
    destruct r; reflexivity.
Qed.

(** * The specification, statement by statement *)

(** C1, as stated, fails: [resolve("", 1, 1, cb)] is not rejected.  The
    empty name is copied, a worker is queued, and when the pool runs it the
    engine is asked to resolve the empty name. *)
Lemma resolve_empty_name_is_submitted :
  let info := method_call [JString ""; one; one; JFunction 3] in
  let '(o, w) := NodeUnbound_Resolve stub_engine handle info empty_world in
  o = Ok (JObject 7)
  /\ length (queue w) = 1%nat
  /\ trace w = [ev_strdup "" 0]
  /\ count is_ub_resolve
       (trace (snd (run_queued stub_engine 0 w))) = 1%nat.
Proof. vm_compute. repeat split; reflexivity. Qed.

(** C1, amended: a call to [resolve] whose name argument is absent or not a
    string is refused inside the call, with the arity [Error] or the
    first-argument [TypeError], and the world is left as it was: no name
    copy, no queued worker, no engine call.  An empty string is a string:
    with the other three arguments well-typed and memory available it is
    copied and a worker for it is queued. *)
Theorem resolve_refuses_non_string_name
    (E : Engine) (ub : NodeUnbound) (info : FunctionCallbackInfo)
    (w : world) :
  (IsString (info_at info 0) = false ->
   exists e, NodeUnbound_Resolve E ub info w = (Throw e, w)
             /\ (e = Error "unbound.resolve() requires arguments."
                 \/ e = TypeError "First argument must be a string."))
  /\ (well_typed_resolve info = true ->
      info_at info 0 = JString "" ->
      malloc_ok E (trace w) "" = true ->
      exists w', NodeUnbound_Resolve E ub info w = (Ok (JObject (This info)), w')
                 /\ length (queue w') = S (length (queue w))
                 /\ trace w' = trace w ++ [ev_strdup "" (fresh (dom (heap w)))]).
Proof.
  split.
  - intros Hname. unfold NodeUnbound_Resolve.
    destruct (Length info =? 4); simpl.
    + rewrite Hname. simpl. eexists; split; [reflexivity|right; reflexivity].
    + eexists; split; [reflexivity|left; reflexivity].
  - intros Hwt Hempty Hmem.
    pose proof (Resolve_submits E ub info w Hwt) as H. simpl in H.
    rewrite Hempty in H. simpl in H. rewrite Hmem in H.
    destruct H as (wk & _ & ->).
    eexists; split; [reflexivity|]. simpl. rewrite length_app. simpl.
    split; [lia|reflexivity].
Qed.

Lemma resolve_refuses_non_string_name_witness :
  exists e,
    NodeUnbound_Resolve stub_engine handle
      (method_call [JNumber (num_fin 5%Q); one; one; JFunction 3]) empty_world
    = (Throw e, empty_world)
    /\ (e = Error "unbound.resolve() requires arguments."
        \/ e = TypeError "First argument must be a string.").
Proof.
  apply (resolve_refuses_non_string_name stub_engine handle
           (method_call [JNumber (num_fin 5%Q); one; one; JFunction 3])
           empty_world).
  reflexivity.
Defined.

(** C2: with [addTrustAnchorFile("root.key", true)] the caller asks for the
    autotrust variant, and the engine is asked for the plain file variant:
    the flag is read from [info[2]], which a two-argument call does not
    have. *)
Theorem addTrustAnchorFile_true_takes_file_variant :
  let info := method_call [JString "root.key"; JBoolean true] in
  NodeUnbound_AddTrustAnchorFile stub_engine handle info empty_world
  = (Ok (JObject 7),
     set_trace [ev_ub (ub_ctx_add_ta_file (Some 1%nat) "root.key")]
       empty_world).
Proof. reflexivity. Qed.

(** C3, as stated, fails: an engine string of 257 characters is not cut
    short.  The message carries none of it. *)
Lemma long_engine_string_is_not_truncated :
  let E := engine_saying (repeat_char "a" 257) in
  nu_strerror E 5 = "libunbound: unknown error"
  /\ ~ prefixed_or_truncated E 5.
Proof.
  split; [reflexivity|].
  unfold prefixed_or_truncated. intros [k Hk].
  change (nu_strerror _ 5) with "libunbound: unknown error" in Hk.
  destruct k; simpl in Hk; discriminate.
Qed.

(** C3, amended: every nonzero engine status that a configuration or
    resolve operation surfaces is turned into a message by [nu_strerror].
    The message is ["libunbound: "] followed by the engine's own string
    when the engine has one of at most 256 characters.  When the engine's
    string is longer, or the engine has none, the message is
    ["libunbound: unknown error"]: the long string is replaced, not
    truncated.  Either way the message fits the static buffer of
    12 + 256 + 1 bytes. *)
Theorem engine_status_message (E : Engine) :
  status_surfaced E
  /\ forall err : Z,
       nu_strerror E err
       = match ub_strerror E err with
         | Some s => if (String.length s <=? 256)%nat
                     then "libunbound: " +:+ s
                     else "libunbound: unknown error"
         | None => "libunbound: unknown error"
         end
       /\ Z.of_nat (String.length (nu_strerror E err)) < errmsg_size.
Proof.
  split; [apply status_is_surfaced|].
  intros err. split; [apply nu_strerror_translated|apply nu_strerror_fits].
Qed.

Lemma engine_status_message_witness :
  nu_strerror stub_engine 5 = "libunbound: no error"
  /\ Z.of_nat (String.length (nu_strerror stub_engine 5)) < errmsg_size.
Proof.
  destruct (proj2 (engine_status_message stub_engine) 5) as [Hmsg Hfit].
  split; [exact Hmsg|exact Hfit].
Defined.

(** C4: when the blocking resolve call reports status zero with a result
    of which [answer_len] bytes are readable at [answer_packet], the task
    delivers to the callback the array of: a buffer with a copy of those
    [answer_len] bytes, the secure flag, the bogus flag, and a reason.  The
    reason is a string exactly when bogus is set and the engine gave a
    diagnostic, and it is then that diagnostic as [Nan::New<v8::String>]
    decodes it; otherwise it is [null].  So a result without both flags set
    is never delivered with both flags true. *)
Theorem delivered_answer
    (E : Engine) (wk : NodeUnboundWorker) (w : world) (p : nat) (s : string)
    (f : nat) (r : ub_result) :
  queued wk w p s f ->
  ub_resolve E (trace w) (w_ctx wk) s (w_rrtype wk) (w_rrclass wk)
  = (0, Some r) ->
  0 <= answer_len r <= Z.of_nat (length (answer_packet r)) ->
  answer_len r <= kMaxLength ->
  exists w' reason,
    run_task E wk w = (Ok tt, w')
    /\ List.filter is_callback (trace w')
       = List.filter is_callback (trace w)
         ++ [ev_callback f
               [JNull;
                JArray [JBuffer (take (Z.to_nat (answer_len r))
                                   (answer_packet r));
                        JBoolean (bool_of_int (secure r));
                        JBoolean (bool_of_int (bogus r));
                        reason]]]
    /\ (forall why, bogus r <> 0 -> why_bogus r = Some why ->
                    reason = JString (New_v8_String E why))
    /\ (bogus r = 0 \/ why_bogus r = None -> reason = JNull)
    /\ ((exists str, reason = JString str)
        <-> bogus r <> 0 /\ is_Some (why_bogus r))
    /\ (~ (secure r <> 0 /\ bogus r <> 0) ->
        ~ (bool_of_int (secure r) = true /\ bool_of_int (bogus r) = true)).
Proof.
  intros Hq Hub Hlen Hmax.
  pose proof (run_task_run E wk w p s f Hq) as Hrun. rewrite Hub in Hrun.
  assert (Hsize : copy_size r = answer_len r)
    by (apply copy_size_small; lia).
  assert (Hok : copy_ok r = true).
  { unfold copy_ok. rewrite Hsize.
    destruct (Z.ltb_spec kMaxLength (answer_len r)); [lia|].
    destruct (Z.ltb_spec (Z.of_nat (length (answer_packet r))) (answer_len r));
      [lia|reflexivity]. }
  unfold completes, task_events in Hrun. simpl in Hrun. rewrite Hok in Hrun.
  eexists _, (reason_of E r).
  split; [exact Hrun|]. split.
  - simpl. rewrite List.filter_app. simpl. unfold answer_of.
    rewrite Hsize. reflexivity.
  - unfold reason_of, bool_of_int.
    destruct (Z.eqb_spec (bogus r) 0) as [Hb|Hb];
      destruct (why_bogus r) as [why|]; simpl.
    all: split; [intros why' Hne Hwhy; congruence|].
    all: split; [intros [Hz|Hnone]; congruence|].
    all: split;
      [split;
       [intros [str Hstr];
        first [discriminate Hstr
              |split; [assumption|eexists; reflexivity]]
       |intros [Hne [x Hx]];
        first [congruence|eexists; reflexivity]]
      |].
    all: intros Hnot [H1 H2];
      first [discriminate H2
            |apply Hnot; split;
             [intros Hz; rewrite Hz in H1; discriminate H1|assumption]].
Qed.

Lemma delivered_answer_witness :
  exists w' reason,
    run_task (engine_resolving 0 (Some bogus_result)) stub_worker stub_world
    = (Ok tt, w')
    /\ List.filter is_callback (trace w')
       = List.filter is_callback (trace stub_world)
         ++ [ev_callback 3
               [JNull;
                JArray [JBuffer [x01; x02; x03];
                        JBoolean false; JBoolean true; reason]]]
    /\ reason = JString ("no" +:+ replacement +:+ "key").
Proof.
  destruct (delivered_answer (engine_resolving 0 (Some bogus_result))
              stub_worker stub_world 0 "example.test" 3 bogus_result
              stub_worker_queued eq_refl)
    as (w' & reason & Hrun & Hcb & Hwhy & _).
  - split; [discriminate|]. vm_compute. discriminate.
  - vm_compute. discriminate.
  - exists w', reason. split; [exact Hrun|]. split; [exact Hcb|].
    apply (Hwhy ("no" +:+ String (ascii_of_nat 255) "key"));
      [discriminate|reflexivity].
Defined.

(** C5, as stated, fails: when [ub_ctx_debugout] reports status 5 the
    constructor throws, no [ub_ctx_delete] has been asked for, and the
    wrapped object still holds the context. *)
Lemma failed_setup_keeps_context :
  let E := engine_saying "syntax error" in
  let info := {| This := 7%nat; IsConstructCall := true; args := [] |} in
  let '(o, w) := NodeUnbound_New E info empty_world in
  o = Throw (Error "libunbound: syntax error")
  /\ trace w = [ev_ub_ctx_create; ev_ub (ub_ctx_debugout (Some 1%nat) None)]
  /\ count is_ub_ctx_delete (trace w) = 0%nat
  /\ wrapped w !! 7%nat = Some {| ctx := Some 1%nat |}.
Proof. vm_compute. repeat split; reflexivity. Qed.

(** C5, amended: when creation fails because a setup call after
    [ub_ctx_create] reports a nonzero status, the constructor throws the
    translated message while the native state is still held by the wrapped
    object: nothing is released before the error is surfaced.  The state is
    released, once, when the runtime later finalizes the wrapped object and
    its destructor runs. *)
Theorem failed_setup_releases_on_finalize
    (E : Engine) (info : FunctionCallbackInfo) (w : world) (c : ub_ctx) :
  IsConstructCall info = true ->
  ub_ctx_create E (trace w) = Some c ->
  debugout_status E w c <> 0
  \/ (debugout_status E w c = 0 /\ debuglevel_status E w c <> 0) ->
  exists err w',
    err <> 0
    /\ NodeUnbound_New E info w = (Throw (Error (nu_strerror E err)), w')
    /\ wrapped w' !! This info = Some {| ctx := Some c |}
    /\ count is_ub_ctx_delete (trace w') = count is_ub_ctx_delete (trace w)
    /\ exists w'',
         finalize (This info) w' = (Ok tt, w'')
         /\ trace w'' = trace w' ++ [ev_ub_ctx_delete c]
         /\ wrapped w'' !! This info = None.
Proof.
  intros Hnew Hcreate Hfail.
  rewrite (New_run E info w c Hnew Hcreate).
  destruct Hfail as [H1 | [H1 H2]].
  - exists (debugout_status E w c). eexists. split; [exact H1|].
    destruct (Z.eqb_spec (debugout_status E w c) 0); [congruence|]. simpl.
    split; [reflexivity|]. split; [apply lookup_insert_eq|].
    split.
    + simpl. unfold debugout_trace. rewrite count_app. unfold count.
      simpl. lia.
    + rewrite finalize_holding. eexists. split; [reflexivity|]. simpl.
      split; [reflexivity|apply lookup_delete_eq].
  - exists (debuglevel_status E w c). eexists. split; [exact H2|].
    rewrite H1. simpl.
    destruct (Z.eqb_spec (debuglevel_status E w c) 0); [congruence|]. simpl.
    split; [reflexivity|]. split; [apply lookup_insert_eq|].
    split.
    + simpl. unfold debuglevel_trace, debugout_trace. rewrite !count_app.
      unfold count. simpl. lia.
    + rewrite finalize_holding. eexists. split; [reflexivity|]. simpl.
      split; [reflexivity|apply lookup_delete_eq].
Qed.

Lemma failed_setup_releases_on_finalize_witness :
  let E := engine_saying "syntax error" in
  let info := {| This := 7%nat; IsConstructCall := true; args := [] |} in
  exists err w',
    err <> 0
    /\ NodeUnbound_New E info empty_world
       = (Throw (Error (nu_strerror E err)), w')
    /\ wrapped w' !! 7%nat = Some {| ctx := Some 1%nat |}
    /\ count is_ub_ctx_delete (trace w') = 0%nat
    /\ exists w'',
         finalize 7 w' = (Ok tt, w'')
         /\ trace w'' = trace w' ++ [ev_ub_ctx_delete 1%nat]
         /\ wrapped w'' !! 7%nat = None.
Proof.
  apply (failed_setup_releases_on_finalize (engine_saying "syntax error")
           {| This := 7%nat; IsConstructCall := true; args := [] |}
           empty_world 1%nat).
  - reflexivity.
  - reflexivity.
  - left. vm_compute. discriminate.
Defined.

(** C6, as stated, fails: the task keeps in its result slot whatever the
    engine left through [&result].  With an engine that reports status 5
    and leaves a result both slots are populated after [Execute]; with one
    that reports status 0 and leaves none, neither is. *)
Lemma execute_can_fill_both_slots_or_none :
  (exists wk' w',
      NodeUnboundWorker_Execute (engine_resolving 5 (Some fixed_result))
        stub_worker stub_world = (Ok wk', w')
      /\ w_errmsg wk' = Some "libunbound: syntax error"
      /\ w_result wk' = Some fixed_result)
  /\ (exists wk' w',
         NodeUnboundWorker_Execute (engine_resolving 0 None)
           stub_worker stub_world = (Ok wk', w')
         /\ w_errmsg wk' = None
         /\ w_result wk' = None).
Proof.
  split; eexists _, _; (split; [reflexivity|]); split; reflexivity.
Qed.

(** C6, amended: once [Execute] has run the blocking call, the failure
    slot ([errmsg_]) is populated, with the translated message, exactly
    when the engine's status is nonzero, and the result slot ([result])
    holds exactly what the engine left through [&result], whatever the
    status.  Exactly one of the two is populated if and only if the engine
    left a result exactly on status zero. *)
Theorem execute_slots_by_engine_answer
    (E : Engine) (wk : NodeUnboundWorker) (w : world) (p : nat) (s : string)
    (f : nat) (err : Z) (r : option ub_result) :
  queued wk w p s f ->
  ub_resolve E (trace w) (w_ctx wk) s (w_rrtype wk) (w_rrclass wk)
  = (err, r) ->
  exists wk' w',
    NodeUnboundWorker_Execute E wk w = (Ok wk', w')
    /\ w_errmsg wk' = (if err =? 0 then None else Some (nu_strerror E err))
    /\ w_result wk' = r
    /\ ((is_Some (w_errmsg wk') /\ w_result wk' = None)
        \/ (w_errmsg wk' = None /\ is_Some (w_result wk'))
        <-> resolve_contract err r).
Proof.
  intros [Hname Hlive _ Herr Hres] Hub. unfold resolve_contract.
  rewrite (Execute_run E wk w p s Hname Hlive), Hub.
  eexists; eexists; split; [reflexivity|].
  destruct (Z.eqb_spec err 0) as [Hz|Hnz]; simpl.
  - split; [exact Herr|]. split; [reflexivity|]. rewrite Herr. split.
    + intros [[[m Hm] _]|[_ Hsome]]; [discriminate|].
      split; [intros _; exact Hsome|intros _; exact Hz].
    + intros Hiff. right. split; [reflexivity|apply Hiff, Hz].
  - split; [reflexivity|]. split; [reflexivity|]. split.
    + intros [[_ Hnone]|[Hmsg _]]; [|discriminate].
      subst r. split; [contradiction|intros [x Hx]; discriminate].
    + intros Hiff. left. split; [eexists; reflexivity|].
      destruct r as [res|]; [|reflexivity].
      exfalso. apply Hnz, Hiff. eexists; reflexivity.
Qed.

Lemma execute_slots_by_engine_answer_witness :
  exists wk' w',
    NodeUnboundWorker_Execute stub_engine stub_worker stub_world = (Ok wk', w')
    /\ w_errmsg wk' = None
    /\ w_result wk' = Some fixed_result
    /\ ((is_Some (w_errmsg wk') /\ w_result wk' = None)
        \/ (w_errmsg wk' = None /\ is_Some (w_result wk'))).
Proof.
  destruct (execute_slots_by_engine_answer stub_engine stub_worker
              stub_world 0 "example.test" 3 0 (Some fixed_result)
              stub_worker_queued eq_refl)
    as (wk' & w' & Hrun & Hmsg & Hres & Hone).
  exists wk', w'.
  split; [exact Hrun|]. split; [exact Hmsg|]. split; [exact Hres|].
  apply Hone. split; [intros _; eexists; reflexivity|reflexivity].
Defined.

(** C7: on every path on which a task comes to its end, with a result or
    with an error, the trace of the task has exactly one [free], that of
    the name copy, and exactly one [ub_resolve_free] when the engine left a
    result and none when it left none; afterwards the name copy is no
    longer live.  The task is the one [resolve] queued. *)
Theorem task_releases_once
    (E : Engine) (ub : NodeUnbound) (info : FunctionCallbackInfo)
    (w : world) :
  well_typed_resolve info = true ->
  malloc_ok E (trace w) (Utf8String (info_at info 0)) = true ->
  exists wk p s f w1,
    NodeUnbound_Resolve E ub info w = (Ok (JObject (This info)), w1)
    /\ queue w1 = queue w ++ [wk]
    /\ heap w !! p = None
    /\ queued wk w1 p s f
    /\ forall w2 err r,
         queued wk w2 p s f ->
         ub_resolve E (trace w2) (w_ctx wk) s (w_rrtype wk) (w_rrclass wk)
         = (err, r) ->
         completes err r = true ->
         exists new w3,
           run_task E wk w2 = (Ok tt, w3)
           /\ trace w3 = trace w2 ++ new
           /\ heap w3 = delete p (heap w2)
           /\ count (is_free_of p) new = 1%nat
           /\ count is_free new = 1%nat
           /\ count is_ub_resolve_free new = releases r
           /\ count (is_release_of r) new = releases r.
Proof.
  intros Hwt Hmem.
  pose proof (Resolve_submits E ub info w Hwt) as H. simpl in H.
  rewrite Hmem in H. destruct H as (wk & Hwk & Hrun).
  unfold submitted_worker in Hwk.
  destruct (To_uint32 (info_at info 1)) as [rrtype|]; [|discriminate].
  destruct (To_uint32 (info_at info 2)) as [rrclass|]; [|discriminate].
  destruct (As_Function (info_at info 3)) as [f|]; [|discriminate].
  simpl in Hwk. injection Hwk as <-.
  eexists _, (fresh (dom (heap w))), (Utf8String (info_at info 0)), f, _.
  split; [exact Hrun|]. split; [reflexivity|].
  split; [apply fresh_block_unused|]. split.
  - constructor; simpl; try reflexivity. apply lookup_insert_eq.
  - intros w2 err r Hq Hub Hdone.
    pose proof (run_task_run E _ w2 _ _ _ Hq) as Htask.
    rewrite Hub, Hdone in Htask.
    eexists _, _. split; [exact Htask|].
    split; [reflexivity|]. split; [reflexivity|].
    apply task_events_release, Hdone.
Qed.

Lemma task_releases_once_witness :
  exists wk p s f w1,
    NodeUnbound_Resolve stub_engine handle
      (method_call [JString "example.test"; one; one; JFunction 3])
      empty_world
    = (Ok (JObject 7), w1)
    /\ queue w1 = [wk]
    /\ heap empty_world !! p = None
    /\ queued wk w1 p s f
    /\ exists new w3,
         run_task stub_engine wk w1 = (Ok tt, w3)
         /\ trace w3 = trace w1 ++ new
         /\ heap w3 = delete p (heap w1)
         /\ count (is_free_of p) new = 1%nat
         /\ count is_free new = 1%nat
         /\ count is_ub_resolve_free new = 1%nat
         /\ count (is_release_of (Some fixed_result)) new = 1%nat.
Proof.
  destruct (task_releases_once stub_engine handle
              (method_call [JString "example.test"; one; one; JFunction 3])
              empty_world eq_refl eq_refl)
    as (wk & p & s & f & w1 & Hrun & Hqueue & Hfresh & Hq & Htask).
  exists wk, p, s, f, w1.
  split; [exact Hrun|]. split; [exact Hqueue|]. split; [exact Hfresh|].
  split; [exact Hq|].
  apply (Htask w1 0 (Some fixed_result) Hq eq_refl eq_refl).
Defined.

(** C8: destroying a handle releases the native state it holds, and any
    further destruction of the same handle does nothing: the handle has
    been cleared, no [ub_ctx_delete] is asked for again, nothing is thrown.
    So destroying any number of times, at least once, is destroying once. *)
Theorem destroy_is_idempotent (ub : NodeUnbound) (w : world) :
  exists w',
    NodeUnbound_dtor ub w = (Ok {| ctx := None |}, w')
    /\ trace w' = trace w ++ match ctx ub with
                            | Some c => [ev_ub_ctx_delete c]
                            | None => []
                            end
    /\ NodeUnbound_dtor {| ctx := None |} w' = (Ok {| ctx := None |}, w')
    /\ forall n, destroy_times (S n) ub w = NodeUnbound_dtor ub w.
Proof.
  destruct ub as [[c|]].
  - eexists. split; [reflexivity|]. split; [reflexivity|].
    split; [reflexivity|]. intros n. simpl. unfold bind.
    unfold NodeUnbound_dtor at 1. simpl.
    unfold call_ub_ctx_delete, emit, bind, ret. simpl.
    apply destroy_times_released.
  - exists w. split; [reflexivity|]. split; [now rewrite app_nil_r|].
    split; [reflexivity|]. intros n. simpl. unfold bind.
    rewrite dtor_released. apply destroy_times_released.
Qed.

(** C9: a call to [resolve] with the wrong number of arguments or with a
    mistyped argument throws inside the call and leaves the world as it
    was: no name copy, no queued worker, no engine call.  No call, whatever
    its arguments, throws after it has queued a worker or copied the name:
    a throw leaves the world untouched, and a call that changes the world
    returns the receiver. *)
Theorem resolve_argument_errors_before_work
    (E : Engine) (ub : NodeUnbound) (info : FunctionCallbackInfo)
    (w : world) :
  (Length info <> 4
   \/ IsString (info_at info 0) = false
   \/ IsNumber (info_at info 1) = false
   \/ IsNumber (info_at info 2) = false
   \/ IsFunction (info_at info 3) = false ->
   exists e, NodeUnbound_Resolve E ub info w = (Throw e, w))
  /\ (forall e w', NodeUnbound_Resolve E ub info w = (Throw e, w') -> w' = w)
  /\ (forall o w', NodeUnbound_Resolve E ub info w = (o, w') ->
                   w' <> w -> o = Ok (JObject (This info))).
Proof.
  split; [|split].
  - intros Hbad. apply Resolve_rejects. unfold well_typed_resolve.
    destruct (Z.eqb_spec (Length info) 4) as [Hlen|Hlen]; [|reflexivity].
    destruct Hbad as [H|[H|[H|[H|H]]]]; [contradiction|..]; rewrite H;
      simpl; rewrite ?andb_false_r; reflexivity.
  - intros e w' Hrun.
    destruct (Resolve_throw_before_work E ub info w) as [[e0 H]|[w0 [H _]]];
      rewrite H in Hrun; congruence.
  - intros o w' Hrun Hchanged.
    destruct (Resolve_throw_before_work E ub info w) as [[e0 H]|[w0 [H _]]];
      rewrite H in Hrun; congruence.
Qed.

Lemma resolve_argument_errors_before_work_witness :
  exists e,
    NodeUnbound_Resolve stub_engine handle
      (method_call [JString "example.test"; JString "A"; one; JFunction 3])
      empty_world
    = (Throw e, empty_world).
Proof.
  apply (proj1 (resolve_argument_errors_before_work stub_engine handle
                  (method_call [JString "example.test"; JString "A"; one;
                                JFunction 3])
                  empty_world)).
  right; right; left. reflexivity.
Defined.

(** C10: on a call of [getOption] with one string argument for which the
    engine reports status zero: when the engine leaves no value the call
    returns [null], not an empty string and not an error; otherwise it
    returns the engine's string as [Nan::New<v8::String>] decodes it, and
    the block the engine allocated for it has been freed when the call
    returns, so the heap is what it was. *)
Theorem getOption_returns_value_or_null
    (E : Engine) (ub : NodeUnbound) (info : FunctionCallbackInfo)
    (w : world) (value : option string) :
  Length info = 1 ->
  IsString (info_at info 0) = true ->
  ub_ctx_get_option E (trace w) (ctx ub) (Utf8String (info_at info 0))
  = (0, value) ->
  exists w',
    NodeUnbound_GetOption E ub info w
    = (Ok match value with
          | Some s => JString (New_v8_String E s)
          | None => JNull
          end, w')
    /\ heap w' = heap w
    /\ trace w'
       = trace w
         ++ ev_ub_ctx_get_option (ctx ub) (Utf8String (info_at info 0))
         :: match value with
            | Some _ => [ev_free (fresh (dom (heap w)))]
            | None => []
            end.
Proof.
  intros Hlen Hstr Hget.
  rewrite (GetOption_run E ub info w Hlen Hstr), Hget.
  destruct value as [s|]; simpl; eexists; split; try reflexivity;
    simpl; split; try reflexivity.
  now rewrite <- app_assoc.
Qed.

Lemma getOption_returns_value_or_null_witness :
  exists w',
    NodeUnbound_GetOption engine_with_option handle
      (method_call [JString "do-ip6"]) empty_world
    = (Ok (JString ("y" +:+ replacement +:+ "s")), w')
    /\ heap w' = heap empty_world
    /\ trace w'
       = trace empty_world
         ++ [ev_ub_ctx_get_option (Some 1%nat) "do-ip6";
             ev_free (fresh (dom (heap empty_world)))].
Proof.
  apply (getOption_returns_value_or_null engine_with_option handle
           (method_call [JString "do-ip6"]) empty_world
           (Some ("y" +:+ String (ascii_of_nat 255) "s")));
    reflexivity.
Defined.

(** * Further properties of the binding *)

(** ** Validation and forwarding of the configuration methods *)

Lemma config_entry_outcome (E : Engine) (ub : NodeUnbound)
    (info : FunctionCallbackInfo) (w : world) :
  Forall (config_outcome E ub info w) config_table.
Proof.
  unfold config_table.
  repeat (apply Forall_cons_2); try apply Forall_nil_2;
    unfold config_outcome, argument_error, NodeUnbound_SetOption,
      NodeUnbound_SetConfig, NodeUnbound_SetForward, NodeUnbound_SetStub,
      NodeUnbound_SetResolvConf, NodeUnbound_SetHosts,
      NodeUnbound_AddTrustAnchor, NodeUnbound_AddTrustAnchorFile,
      NodeUnbound_AddTrustedKeys, NodeUnbound_AddZone,
      NodeUnbound_RemoveZone, NodeUnbound_AddData, NodeUnbound_RemoveData;
    match goal with
    | |- context [Z.of_nat ?l] =>
        let v := eval vm_compute in (Z.of_nat l) in
        change (Z.of_nat l) with v
    end;
    match goal with
    | |- context [Length info =? ?n] =>
        destruct (Length info =? n) eqn:Hlen; simpl;
        [apply Z.eqb_eq in Hlen|reflexivity]
    end;
    shape_args info Hlen; simpl;
    repeat one_argument; try forwarded.
  all: match goal with b : bool |- _ => destruct b end; forwarded.
Qed.

(** X1: each of the thirteen configuration methods refuses a call by its
    arguments alone in a fixed order: a wrong number of arguments is an
    [Error] naming the method, otherwise the first argument of the wrong
    kind is a [TypeError] naming its position and kind.  The refusal leaves
    the world as it was: nothing is asked of the engine. *)
Theorem config_argument_errors (E : Engine) (ub : NodeUnbound)
    (info : FunctionCallbackInfo) (w : world) :
  map snd config_table = config_methods
  /\ Forall (fun '(name, sig, m) =>
               forall e, argument_error name sig info = Some e ->
                         m E ub info w = (Throw e, w))
            config_table.
Proof.
  split; [reflexivity|].
  eapply Forall_impl; [apply (config_entry_outcome E ub info w)|].
  intros [[name sig] m] Hout e He. unfold config_outcome in Hout.
  now rewrite He in Hout.
Qed.

Lemma config_argument_errors_witness :
  NodeUnbound_SetStub stub_engine handle
    (method_call [JString "."; one; JBoolean true]) empty_world
  = (Throw (TypeError "Second argument must be a string."), empty_world).
Proof.
  pose proof (proj2 (config_argument_errors stub_engine handle
                       (method_call [JString "."; one; JBoolean true])
                       empty_world)) as H.
  apply (Forall_lookup_1 _ _ 3
           ("setStub", [a_string; a_string; a_boolean], NodeUnbound_SetStub))
    in H; [|reflexivity].
  apply H. reflexivity.
Defined.

(** X2: a configuration call whose arguments pass validation makes exactly
    one engine call, on the context of the handle it was called on, and
    that call carries the C strings of the call's string arguments, all of
    them and in order.  Status zero returns the receiver; any other status
    throws the engine's translated message. *)
Theorem config_forwards_to_own_context (E : Engine) (ub : NodeUnbound)
    (info : FunctionCallbackInfo) (w : world) :
  Forall (fun '(name, sig, m) =>
            argument_error name sig info = None ->
            forwards_own E ub info (m E ub info) w)
         config_table.
Proof.
  eapply Forall_impl; [apply (config_entry_outcome E ub info w)|].
  intros [[name sig] m] Hout Hnone. unfold config_outcome in Hout.
  now rewrite Hnone in Hout.
Qed.

Lemma config_forwards_to_own_context_witness :
  forwards_own stub_engine handle
    (method_call [JString "example."; JString "static"])
    (NodeUnbound_AddZone stub_engine handle
       (method_call [JString "example."; JString "static"]))
    empty_world.
Proof.
  pose proof (config_forwards_to_own_context stub_engine handle
                (method_call [JString "example."; JString "static"])
                empty_world) as H.
  apply (Forall_lookup_1 _ _ 9
           ("addZone", [a_string; a_string], NodeUnbound_AddZone))
    in H; [|reflexivity].
  apply H. reflexivity.
Defined.

(** X3: [setStub(zone, addr, isprime)] hands the engine its third argument
    as the prime flag: 1 for [true], 0 for [false]. *)
Theorem setStub_forwards_prime_flag (E : Engine) (ub : NodeUnbound)
    (info : FunctionCallbackInfo) (w : world)
    (zone addr : string) (isprime : bool) :
  args info = [JString zone; JString addr; JBoolean isprime] ->
  trace (snd (NodeUnbound_SetStub E ub info w))
  = trace w ++ [ev_ub (ub_ctx_set_stub (ctx ub) (c_str zone) (c_str addr)
                         (if isprime then 1 else 0))].
Proof.
  intros Hargs. destruct info as [this construct argv]. simpl in Hargs.
  subst argv. unfold NodeUnbound_SetStub. nu_unfold. simpl.
  destruct isprime; simpl;
    match goal with
    | |- context [ub_status ?E ?t ?c =? 0] =>
        destruct (ub_status E t c =? 0); reflexivity
    end.
Qed.

Lemma setStub_forwards_prime_flag_witness :
  trace (snd (NodeUnbound_SetStub stub_engine handle
                (method_call [JString "."; JString "192.0.2.1";
                              JBoolean true])
                empty_world))
  = [ev_ub (ub_ctx_set_stub (Some 1%nat) "." "192.0.2.1" 1)].
Proof.
  apply (setStub_forwards_prime_flag stub_engine handle
           (method_call [JString "."; JString "192.0.2.1"; JBoolean true])
           empty_world "." "192.0.2.1" true).
  reflexivity.
Defined.

(** ** [getOption] and [resolve], by their arguments *)

(** X4: [getOption] refuses by its arguments like the configuration
    methods.  On a validated call it asks the engine once, on the handle's
    own context; when the engine reports a nonzero status the call throws
    the translated message and frees nothing: the value pointer, which the
    engine did not set, is never touched. *)
Theorem getOption_refusal_and_failure (E : Engine) (ub : NodeUnbound)
    (info : FunctionCallbackInfo) (w : world) :
  match argument_error "getOption" [a_string] info with
  | Some e => NodeUnbound_GetOption E ub info w = (Throw e, w)
  | None =>
      let opt := Utf8String (info_at info 0) in
      let err := fst (ub_ctx_get_option E (trace w) (ctx ub) opt) in
      err <> 0 ->
      exists w',
        NodeUnbound_GetOption E ub info w
        = (Throw (Error (nu_strerror E err)), w')
        /\ trace w' = trace w ++ [ev_ub_ctx_get_option (ctx ub) opt]
        /\ queue w' = queue w
        /\ wrapped w' = wrapped w
  end.
Proof.
  unfold argument_error.
  change (Z.of_nat (length [a_string])) with 1.
  destruct (Length info =? 1) eqn:Hlen; simpl;
    [|unfold NodeUnbound_GetOption; rewrite Hlen; reflexivity].
  destruct (IsString (info_at info 0)) eqn:Hstr; simpl;
    [|unfold NodeUnbound_GetOption; rewrite Hlen, Hstr; reflexivity].
  apply Z.eqb_eq in Hlen. intros Hne.
  rewrite (GetOption_run E ub info w Hlen Hstr).
  destruct (ub_ctx_get_option E (trace w) (ctx ub)
              (Utf8String (info_at info 0))) as [err [s|]];
    simpl in Hne; destruct (Z.eqb_spec err 0); try congruence;
    eexists; repeat split; reflexivity.
Qed.

Lemma getOption_refusal_and_failure_witness :
  exists w',
    NodeUnbound_GetOption (engine_saying "syntax error") handle
      (method_call [JString "no-such-option"]) empty_world
    = (Throw (Error "libunbound: syntax error"), w')
    /\ trace w' = [ev_ub_ctx_get_option (Some 1%nat) "no-such-option"]
    /\ queue w' = []
    /\ wrapped w' = ∅.
Proof.
  apply (getOption_refusal_and_failure (engine_saying "syntax error") handle
           (method_call [JString "no-such-option"]) empty_world).
  discriminate.
Defined.

(** X5: [resolve] refuses by its arguments in the same order: the arity,
    then the name, the type, the class and the callback, each with its own
    message, and the world is left as it was.  When the arguments pass and
    the name cannot be copied for lack of memory, the call throws
    ["Could not allocate memory."] and again nothing has been queued. *)
Theorem resolve_refusal (E : Engine) (ub : NodeUnbound)
    (info : FunctionCallbackInfo) (w : world) :
  match argument_error "resolve"
          [a_string; a_number; a_number; a_function] info with
  | Some e => NodeUnbound_Resolve E ub info w = (Throw e, w)
  | None =>
      well_typed_resolve info = true
      /\ (malloc_ok E (trace w) (Utf8String (info_at info 0)) = false ->
          NodeUnbound_Resolve E ub info w
          = (Throw (TypeError "Could not allocate memory."), w))
  end.
Proof.
  unfold argument_error, well_typed_resolve.
  change (Z.of_nat (length [a_string; a_number; a_number; a_function]))
    with 4.
  destruct (Length info =? 4) eqn:Hlen; simpl;
    [|unfold NodeUnbound_Resolve; rewrite Hlen; reflexivity].
  destruct (IsString (info_at info 0)) eqn:H0; simpl;
    [|unfold NodeUnbound_Resolve; rewrite Hlen, H0; reflexivity].
  destruct (IsNumber (info_at info 1)) eqn:H1; simpl;
    [|unfold NodeUnbound_Resolve; rewrite Hlen, H0, H1; reflexivity].
  destruct (IsNumber (info_at info 2)) eqn:H2; simpl;
    [|unfold NodeUnbound_Resolve; rewrite Hlen, H0, H1, H2; reflexivity].
  destruct (IsFunction (info_at info 3)) eqn:H3; simpl;
    [|unfold NodeUnbound_Resolve; rewrite Hlen, H0, H1, H2, H3; reflexivity].
  split; [reflexivity|]. intros Hmem.
  assert (Hwt : well_typed_resolve info = true)
    by (unfold well_typed_resolve; now rewrite Hlen, H0, H1, H2, H3).
  pose proof (Resolve_submits E ub info w Hwt) as H. simpl in H.
  now rewrite Hmem in H.
Qed.

Lemma resolve_refusal_witness :
  NodeUnbound_Resolve stub_engine handle
    (method_call [JString "example.test"; one; JString "IN"; JFunction 3])
    empty_world
  = (Throw (TypeError "Third argument must be a number."), empty_world).
Proof.
  exact (resolve_refusal stub_engine handle
           (method_call [JString "example.test"; one; JString "IN";
                         JFunction 3])
           empty_world).
Defined.

(** ** What [resolve] hands to the worker *)

Lemma int_of_uint32_range (u : Z) :
  0 <= u < 2 ^ 32 -> - 2 ^ 31 <= int_of_uint32 u < 2 ^ 31.
Proof.
  unfold int_of_uint32.
  change (2 ^ 32) with 4294967296. change (2 ^ 31) with 2147483648.
  intros H. destruct (Z.ltb_spec u 2147483648); lia.
Qed.

Lemma ToUint32_range (n : js_number) : 0 <= ToUint32 n < 2 ^ 32.
Proof.
  destruct n as [| |q]; simpl; try (change (2 ^ 32) with 4294967296; lia).
  apply Z.mod_pos_bound. reflexivity.
Qed.

Lemma int_of_uint32_of_integer (t : Z) :
  - 2 ^ 31 <= t < 2 ^ 31 ->
  int_of_uint32 (ToUint32 (num_fin (inject_Z t))) = t.
Proof.
  unfold int_of_uint32, ToUint32. simpl. rewrite Z.quot_1_r.
  change (2 ^ 32) with 4294967296. change (2 ^ 31) with 2147483648.
  intros H. destruct (Z_lt_le_dec t 0) as [Hneg|Hpos].
  - assert (Hm : t mod 4294967296 = t + 4294967296)
      by (symmetry; apply (Z.mod_unique_pos _ _ (-1)); lia).
    rewrite Hm. destruct (Z.ltb_spec (t + 4294967296) 2147483648); lia.
  - rewrite Z.mod_small by lia.
    destruct (Z.ltb_spec t 2147483648); lia.
Qed.

(** X6: the record type and class that [resolve] hands to the worker are
    C [int]s obtained from the JS numbers by [ToUint32] and a cast: always
    within the range of an [int]; equal to the JS number when that is an
    integer in the range; zero for [NaN] and the infinities. *)
Theorem resolve_record_codes (E : Engine) (ub : NodeUnbound)
    (info : FunctionCallbackInfo) (w : world) (n1 n2 : js_number) :
  well_typed_resolve info = true ->
  info_at info 1 = JNumber n1 ->
  info_at info 2 = JNumber n2 ->
  malloc_ok E (trace w) (Utf8String (info_at info 0)) = true ->
  exists wk w',
    NodeUnbound_Resolve E ub info w = (Ok (JObject (This info)), w')
    /\ queue w' = queue w ++ [wk]
    /\ (- 2 ^ 31 <= w_rrtype wk < 2 ^ 31)
    /\ (- 2 ^ 31 <= w_rrclass wk < 2 ^ 31)
    /\ (forall t, n1 = num_fin (inject_Z t) -> - 2 ^ 31 <= t < 2 ^ 31 ->
                  w_rrtype wk = t)
    /\ (forall c, n2 = num_fin (inject_Z c) -> - 2 ^ 31 <= c < 2 ^ 31 ->
                  w_rrclass wk = c)
    /\ (n1 = num_nan \/ (exists s, n1 = num_inf s) -> w_rrtype wk = 0)
    /\ (n2 = num_nan \/ (exists s, n2 = num_inf s) -> w_rrclass wk = 0).
Proof.
  intros Hwt H1 H2 Hmem.
  pose proof (Resolve_submits E ub info w Hwt) as H. simpl in H.
  rewrite Hmem in H. destruct H as (wk & Hwk & Hrun).
  unfold submitted_worker in Hwk. rewrite H1, H2 in Hwk. simpl in Hwk.
  destruct (As_Function (info_at info 3)) as [f|]; [|discriminate].
  simpl in Hwk. injection Hwk as <-.
  eexists _, _. split; [exact Hrun|]. split; [reflexivity|]. simpl.
  split; [apply int_of_uint32_range, ToUint32_range|].
  split; [apply int_of_uint32_range, ToUint32_range|].
  split; [intros t -> Ht; now apply int_of_uint32_of_integer|].
  split; [intros c -> Hc; now apply int_of_uint32_of_integer|].
  split; intros [->|[s ->]]; reflexivity.
Qed.

Lemma resolve_record_codes_witness :
  exists wk w',
    NodeUnbound_Resolve stub_engine handle
      (method_call [JString "example.test";
                    JNumber (num_fin (inject_Z 28)); JNumber num_nan;
                    JFunction 3])
      empty_world
    = (Ok (JObject 7), w')
    /\ queue w' = [wk]
    /\ w_rrtype wk = 28
    /\ w_rrclass wk = 0.
Proof.
  destruct (resolve_record_codes stub_engine handle
              (method_call [JString "example.test";
                            JNumber (num_fin (inject_Z 28)); JNumber num_nan;
                            JFunction 3])
              empty_world (num_fin (inject_Z 28)) num_nan
              eq_refl eq_refl eq_refl eq_refl)
    as (wk & w' & Hrun & Hq & _ & _ & Ht & _ & _ & Hc).
  exists wk, w'. split; [exact Hrun|]. split; [exact Hq|]. split.
  - apply (Ht 28); [reflexivity|]. split; [discriminate|reflexivity].
  - apply Hc. left. reflexivity.
Defined.

Lemma c_str_no_nul (s : string) : has_nul (c_str s) = false.
Proof.
  induction s as [|a s IH]; [reflexivity|]. simpl.
  destruct (Ascii.eqb a Ascii.zero) eqn:Ha; [reflexivity|].
  simpl. now rewrite Ha.
Qed.

Lemma c_str_without_nul (s : string) : has_nul s = false -> c_str s = s.
Proof.
  induction s as [|a s IH]; [reflexivity|]. simpl.
  destruct (Ascii.eqb a Ascii.zero); [discriminate|].
  simpl. intros H. now rewrite IH.
Qed.

Lemma c_str_cut (s : string) :
  has_nul s = true ->
  exists rest, s = c_str s +:+ String Ascii.zero rest.
Proof.
  induction s as [|a s IH]; [discriminate|]. simpl.
  destruct (Ascii.eqb_spec a Ascii.zero) as [->|Hne]; simpl.
  - intros _. exists s. reflexivity.
  - intros H. destruct (IH H) as [rest Hrest]. exists rest.
    rewrite Hrest at 1. reflexivity.
Qed.

(** X7: the name [resolve] copies, and the name the engine is then asked
    to resolve, is the caller's string as C sees it: the string itself when
    it has no NUL character, and otherwise what comes before its first
    NUL. *)
Theorem resolve_name_is_c_string (E : Engine) (ub : NodeUnbound)
    (info : FunctionCallbackInfo) (w : world) (name : string) :
  well_typed_resolve info = true ->
  info_at info 0 = JString name ->
  malloc_ok E (trace w) (c_str name) = true ->
  exists wk p w',
    NodeUnbound_Resolve E ub info w = (Ok (JObject (This info)), w')
    /\ queue w' = queue w ++ [wk]
    /\ w_name wk = Some p
    /\ heap w' !! p = Some (c_str name)
    /\ (exists later,
          trace (snd (run_task E wk w'))
          = trace w' ++ ev_ub_resolve (ctx ub) (c_str name)
                          (w_rrtype wk) (w_rrclass wk) :: later)
    /\ has_nul (c_str name) = false
    /\ (has_nul name = false -> c_str name = name)
    /\ (has_nul name = true ->
        exists rest, name = c_str name +:+ String Ascii.zero rest).
Proof.
  intros Hwt Hname Hmem.
  pose proof (Resolve_submits E ub info w Hwt) as H. simpl in H.
  rewrite Hname in H. simpl in H. rewrite Hmem in H.
  destruct H as (wk & Hwk & Hrun).
  unfold submitted_worker in Hwk.
  destruct (To_uint32 (info_at info 1)) as [rrtype|]; [|discriminate].
  destruct (To_uint32 (info_at info 2)) as [rrclass|]; [|discriminate].
  destruct (As_Function (info_at info 3)) as [f|]; [|discriminate].
  simpl in Hwk. injection Hwk as <-.
  eexists _, (fresh (dom (heap w))), _.
  split; [exact Hrun|]. split; [reflexivity|]. split; [reflexivity|].
  split; [apply lookup_insert_eq|]. split.
  - match goal with
    | |- context [run_task E ?wk ?w1] =>
        pose proof (run_task_run E wk w1 (fresh (dom (heap w)))
                      (c_str name) f) as Htask
    end.
    simpl in Htask.
    destruct (ub_resolve E _ (ctx ub) (c_str name) _ _) as [err r].
    rewrite Htask by (constructor; simpl; try reflexivity;
                      apply lookup_insert_eq).
    unfold task_events.
    destruct (completes err r); simpl;
      rewrite ?app_nil_r; eexists; reflexivity.
  - split; [apply c_str_no_nul|].
    split; [apply c_str_without_nul|apply c_str_cut].
Qed.

Lemma resolve_name_is_c_string_witness :
  exists wk p w',
    NodeUnbound_Resolve stub_engine handle
      (method_call [JString name_with_nul; one; one; JFunction 3])
      empty_world
    = (Ok (JObject 7), w')
    /\ queue w' = [wk]
    /\ w_name wk = Some p
    /\ heap w' !! p = Some "a.test"
    /\ exists later,
         trace (snd (run_task stub_engine wk w'))
         = trace w' ++ ev_ub_resolve (Some 1%nat) "a.test"
                         (w_rrtype wk) (w_rrclass wk) :: later.
Proof.
  destruct (resolve_name_is_c_string stub_engine handle
              (method_call [JString name_with_nul; one; one; JFunction 3])
              empty_world name_with_nul eq_refl eq_refl eq_refl)
    as (wk & p & w' & Hrun & Hq & Hname & Hlive & Hask & _).
  exists wk, p, w'.
  split; [exact Hrun|]. split; [exact Hq|]. split; [exact Hname|].
  split; [exact Hlive|exact Hask].
Defined.

(** ** Tasks through the queue *)

Lemma Resolve_queues (E : Engine) (ub : NodeUnbound)
    (info : FunctionCallbackInfo) (w : world) :
  well_typed_resolve info = true ->
  malloc_ok E (trace w) (Utf8String (info_at info 0)) = true ->
  exists wk f w',
    let p := fresh (dom (heap w)) in
    let s := Utf8String (info_at info 0) in
    NodeUnbound_Resolve E ub info w = (Ok (JObject (This info)), w')
    /\ heap w' = <[p := s]> (heap w)
    /\ queue w' = queue w ++ [wk]
    /\ wrapped w' = wrapped w
    /\ trace w' = trace w ++ [ev_strdup s p]
    /\ w_ctx wk = ctx ub
    /\ forall w2, heap w2 !! p = Some s -> queued wk w2 p s f.
Proof.
  intros Hwt Hmem.
  pose proof (Resolve_submits E ub info w Hwt) as H. simpl in H.
  rewrite Hmem in H. destruct H as (wk & Hwk & Hrun).
  unfold submitted_worker in Hwk.
  destruct (To_uint32 (info_at info 1)) as [rrtype|]; [|discriminate].
  destruct (To_uint32 (info_at info 2)) as [rrclass|]; [|discriminate].
  destruct (As_Function (info_at info 3)) as [f|]; [|discriminate].
  simpl in Hwk. injection Hwk as <-.
  eexists _, f, _. simpl. split; [exact Hrun|].
  repeat (split; [reflexivity|]).
  intros w2 Hlive. constructor; simpl; try reflexivity. exact Hlive.
Qed.

Lemma run_queued_at (E : Engine) (i : nat) (w : world)
    (wk : NodeUnboundWorker) :
  queue w !! i = Some wk ->
  run_queued E i w = run_task E wk (set_queue (delete i (queue w)) w).
Proof. intros H. unfold run_queued. now rewrite H. Qed.

Lemma run_task_completes (E : Engine) (wk : NodeUnboundWorker) (w : world)
    (p : nat) (s : string) (f : nat) :
  queued wk w p s f ->
  completes (fst (ub_resolve E (trace w) (w_ctx wk) s
                    (w_rrtype wk) (w_rrclass wk)))
            (snd (ub_resolve E (trace w) (w_ctx wk) s
                    (w_rrtype wk) (w_rrclass wk))) = true ->
  exists w' new,
    run_task E wk w = (Ok tt, w')
    /\ heap w' = delete p (heap w)
    /\ queue w' = queue w
    /\ wrapped w' = wrapped w
    /\ trace w' = trace w ++ new
    /\ count is_free new = 1%nat
    /\ count (is_free_of p) new = 1%nat.
Proof.
  intros Hq Hdone. pose proof (run_task_run E wk w p s f Hq) as Hrun.
  destruct (ub_resolve E (trace w) (w_ctx wk) s (w_rrtype wk) (w_rrclass wk))
    as [err r]. simpl in Hdone. rewrite Hdone in Hrun.
  eexists _, _. split; [exact Hrun|]. simpl.
  repeat (split; [reflexivity|]).
  destruct (task_events_release E wk p s f err r Hdone) as (H1 & H2 & _).
  split; assumption.
Qed.

(** X8: submitting a query and letting the pool run it to its end gives
    back all the task took: the heap, the queue and the wrapped objects are
    what they were before [resolve] was called.  The run comes to its end
    exactly when the engine does not report success without a readable
    result; otherwise the process is brought down. *)
Theorem submit_then_run_restores (E : Engine) (ub : NodeUnbound)
    (info : FunctionCallbackInfo) (w : world) :
  well_typed_resolve info = true ->
  malloc_ok E (trace w) (Utf8String (info_at info 0)) = true ->
  exists wk w1 w2,
    NodeUnbound_Resolve E ub info w = (Ok (JObject (This info)), w1)
    /\ queue w1 = queue w ++ [wk]
    /\ let '(err, r) :=
         ub_resolve E (trace w1) (ctx ub) (Utf8String (info_at info 0))
           (w_rrtype wk) (w_rrclass wk) in
       run_queued E (length (queue w)) w1
       = (if completes err r then Ok tt else Abort, w2)
       /\ (completes err r = true ->
           heap w2 = heap w /\ queue w2 = queue w
           /\ wrapped w2 = wrapped w).
Proof.
  intros Hwt Hmem.
  destruct (Resolve_queues E ub info w Hwt Hmem)
    as (wk & f & w1 & Hrun & Hheap & Hqueue & Hwrapped & Htrace & Hctx & Hq).
  simpl in *.
  assert (Hat : queue w1 !! length (queue w) = Some wk)
    by (rewrite Hqueue; apply list_lookup_middle; reflexivity).
  assert (Hdel : delete (length (queue w)) (queue w1) = queue w)
    by (rewrite Hqueue, delete_middle; apply app_nil_r).
  exists wk, w1, (snd (run_queued E (length (queue w)) w1)).
  split; [exact Hrun|]. split; [exact Hqueue|].
  rewrite (run_queued_at E _ w1 wk Hat), Hdel.
  pose proof (run_task_run E wk (set_queue (queue w) w1) _ _ f
                (Hq (set_queue (queue w) w1)
                    ltac:(simpl; rewrite Hheap; apply lookup_insert_eq)))
    as Htask.
  simpl in Htask. rewrite Hctx in Htask.
  destruct (ub_resolve E (trace w1) (ctx ub) (Utf8String (info_at info 0))
              (w_rrtype wk) (w_rrclass wk)) as [err r].
  rewrite Htask.
  destruct (completes err r) eqn:Hdone; simpl.
  - split; [reflexivity|]. intros _.
    rewrite Hheap, Hwrapped. split; [apply free_fresh_block|].
    split; reflexivity.
  - split; [reflexivity|discriminate].
Qed.

Lemma submit_then_run_restores_witness :
  exists wk w1 w2,
    NodeUnbound_Resolve stub_engine handle
      (method_call [JString "example.test"; one; one; JFunction 3])
      empty_world
    = (Ok (JObject 7), w1)
    /\ queue w1 = [wk]
    /\ run_queued stub_engine 0 w1 = (Ok tt, w2)
    /\ heap w2 = ∅ /\ queue w2 = [] /\ wrapped w2 = ∅.
Proof.
  destruct (submit_then_run_restores stub_engine handle
              (method_call [JString "example.test"; one; one; JFunction 3])
              empty_world eq_refl eq_refl)
    as (wk & w1 & w2 & Hrun & Hq & Htask & Hback).
  exists wk, w1, w2. split; [exact Hrun|]. split; [exact Hq|].
  split; [exact Htask|]. apply Hback. reflexivity.
Defined.

Lemma run_queued_completes (E : Engine) (i : nat) (w : world)
    (wk : NodeUnboundWorker) (p : nat) (s : string) (f : nat) :
  always_completes E ->
  queue w !! i = Some wk ->
  queued wk w p s f ->
  exists w' new,
    run_queued E i w = (Ok tt, w')
    /\ heap w' = delete p (heap w)
    /\ queue w' = delete i (queue w)
    /\ wrapped w' = wrapped w
    /\ trace w' = trace w ++ new
    /\ count is_free new = 1%nat
    /\ count (is_free_of p) new = 1%nat.
Proof.
  intros Hdone Hat [Hname Hlive Hcb Herr Hres].
  rewrite (run_queued_at E i w wk Hat).
  apply (run_task_completes E wk (set_queue (delete i (queue w)) w) p s f);
    [constructor; assumption|apply Hdone].
Qed.

Lemma frees_of_two_blocks (p1 p2 : nat) (l : list event) :
  p1 <> p2 ->
  (count (is_free_of p1) l + count (is_free_of p2) l <= count is_free l)%nat.
Proof.
  intros Hne. unfold count.
  induction l as [|e l IH]; simpl; [lia|].
  destruct e; simpl; try exact IH.
  repeat case_bool_decide; simpl; lia.
Qed.

(** X9: two queries submitted one after the other get two different name
    copies, and the pool may run the two tasks in either order: both come
    to their end, each frees its own copy once, and the heap and the queue
    are what they were before the first submission. *)
Theorem two_tasks_either_order (E : Engine) (ub : NodeUnbound)
    (info1 info2 : FunctionCallbackInfo) (w : world) :
  always_completes E ->
  never_out_of_memory E ->
  well_typed_resolve info1 = true ->
  well_typed_resolve info2 = true ->
  exists w1 w2 p1 p2,
    NodeUnbound_Resolve E ub info1 w = (Ok (JObject (This info1)), w1)
    /\ NodeUnbound_Resolve E ub info2 w1 = (Ok (JObject (This info2)), w2)
    /\ p1 <> p2
    /\ heap w2 = <[p2 := Utf8String (info_at info2 0)]>
                   (<[p1 := Utf8String (info_at info1 0)]> (heap w))
    /\ forall first,
         first = length (queue w) \/ first = S (length (queue w)) ->
         exists w3 w4 new,
           run_queued E first w2 = (Ok tt, w3)
           /\ run_queued E (length (queue w)) w3 = (Ok tt, w4)
           /\ heap w4 = heap w
           /\ queue w4 = queue w
           /\ trace w4 = trace w2 ++ new
           /\ count (is_free_of p1) new = 1%nat
           /\ count (is_free_of p2) new = 1%nat
           /\ count is_free new = 2%nat.
Proof.
  intros Hdone Hmem Hwt1 Hwt2.
  destruct (Resolve_queues E ub info1 w Hwt1 (Hmem _ _))
    as (wk1 & f1 & w1 & Hrun1 & Hheap1 & Hqueue1 & _ & _ & _ & Hq1).
  destruct (Resolve_queues E ub info2 w1 Hwt2 (Hmem _ _))
    as (wk2 & f2 & w2 & Hrun2 & Hheap2 & Hqueue2 & _ & _ & _ & Hq2).
  simpl in *.
  set (p1 := fresh (dom (heap w))) in *.
  set (p2 := fresh (dom (heap w1))) in *.
  set (s1 := Utf8String (info_at info1 0)) in *.
  set (s2 := Utf8String (info_at info2 0)) in *.
  assert (Hfresh1 : heap w !! p1 = None) by apply fresh_block_unused.
  assert (Hfresh2 : heap w1 !! p2 = None) by apply fresh_block_unused.
  assert (Hne : p1 <> p2).
  { intros Heq. rewrite Hheap1, <- Heq, lookup_insert_eq in Hfresh2.
    discriminate. }
  assert (Hfresh2' : heap w !! p2 = None).
  { rewrite Hheap1, lookup_insert_ne in Hfresh2 by exact Hne. exact Hfresh2. }
  assert (Hlive1 : heap w2 !! p1 = Some s1).
  { rewrite Hheap2, lookup_insert_ne by congruence.
    rewrite Hheap1. apply lookup_insert_eq. }
  assert (Hlive2 : heap w2 !! p2 = Some s2)
    by (rewrite Hheap2; apply lookup_insert_eq).
  assert (Hqueue : queue w2 = queue w ++ [wk1; wk2])
    by (rewrite Hqueue2, Hqueue1, <- app_assoc; reflexivity).
  exists w1, w2, p1, p2.
  split; [exact Hrun1|]. split; [exact Hrun2|]. split; [exact Hne|].
  split; [now rewrite Hheap2, Hheap1|].
  assert (Hback : forall a b : nat, a <> b ->
            heap w !! a = None -> heap w !! b = None -> forall sa sb,
            delete b (delete a (<[b := sb]> (<[a := sa]> (heap w)))) = heap w).
  { intros a b Hab Ha Hb sa sb.
    rewrite (delete_insert_ne _ a b) by congruence.
    rewrite (delete_insert_id (heap w) a sa Ha).
    apply delete_insert_id, Hb. }
  intros first [-> | ->].
  - (* the first task first *)
    destruct (run_queued_completes E (length (queue w)) w2 wk1 p1 s1 f1 Hdone)
      as (w3 & new1 & Hr3 & Hh3 & Hq3 & _ & Ht3 & Hc3 & Hc3').
    { rewrite Hqueue. apply list_lookup_middle. reflexivity. }
    { apply Hq1, Hlive1. }
    rewrite Hqueue, delete_middle in Hq3.
    destruct (run_queued_completes E (length (queue w)) w3 wk2 p2 s2 f2 Hdone)
      as (w4 & new2 & Hr4 & Hh4 & Hq4 & _ & Ht4 & Hc4 & Hc4').
    { rewrite Hq3. apply list_lookup_middle. reflexivity. }
    { apply Hq2. rewrite Hh3, lookup_delete_ne by congruence. exact Hlive2. }
    rewrite Hq3, delete_middle, app_nil_r in Hq4.
    exists w3, w4, (new1 ++ new2).
    split; [exact Hr3|]. split; [exact Hr4|]. split.
    { rewrite Hh4, Hh3, Hheap2, Hheap1. now apply Hback. }
    split; [exact Hq4|].
    split; [now rewrite Ht4, Ht3, app_assoc|].
    rewrite !count_app, Hc3, Hc3', Hc4, Hc4'.
    pose proof (frees_of_two_blocks p1 p2 new1 Hne).
    pose proof (frees_of_two_blocks p1 p2 new2 Hne).
    lia.
  - (* the second task first *)
    destruct (run_queued_completes E (S (length (queue w))) w2 wk2 p2 s2 f2
                Hdone)
      as (w3 & new1 & Hr3 & Hh3 & Hq3 & _ & Ht3 & Hc3 & Hc3').
    { rewrite Hqueue. rewrite (lookup_app_r (queue w)) by lia.
      now replace (S (length (queue w)) - length (queue w))%nat with 1%nat
        by lia. }
    { apply Hq2, Hlive2. }
    assert (Hq3' : queue w3 = queue w ++ [wk1]).
    { rewrite Hq3, Hqueue. change [wk1; wk2] with ([wk1] ++ [wk2]).
      rewrite app_assoc.
      replace (S (length (queue w))) with (length (queue w ++ [wk1]))
        by (rewrite length_app; simpl; lia).
      rewrite delete_middle. apply app_nil_r. }
    destruct (run_queued_completes E (length (queue w)) w3 wk1 p1 s1 f1 Hdone)
      as (w4 & new2 & Hr4 & Hh4 & Hq4 & _ & Ht4 & Hc4 & Hc4').
    { rewrite Hq3'. apply list_lookup_middle. reflexivity. }
    { apply Hq1. rewrite Hh3, lookup_delete_ne by congruence. exact Hlive1. }
    rewrite Hq3', delete_middle, app_nil_r in Hq4.
    exists w3, w4, (new1 ++ new2).
    split; [exact Hr3|]. split; [exact Hr4|]. split.
    { rewrite Hh4, Hh3, Hheap2, Hheap1. rewrite (delete_delete _ p1 p2).
      now apply Hback. }
    split; [exact Hq4|].
    split; [now rewrite Ht4, Ht3, app_assoc|].
    rewrite !count_app, Hc3, Hc3', Hc4, Hc4'.
    pose proof (frees_of_two_blocks p1 p2 new1 Hne).
    pose proof (frees_of_two_blocks p1 p2 new2 Hne).
    lia.
Qed.

Lemma stub_engine_completes : always_completes stub_engine.
Proof. intros t c s rrtype rrclass. reflexivity. Qed.

Lemma stub_engine_has_memory : never_out_of_memory stub_engine.
Proof. intros t s. reflexivity. Qed.

Lemma two_tasks_either_order_witness :
  exists w1 w2 p1 p2 w3 w4 new,
    NodeUnbound_Resolve stub_engine handle
      (method_call [JString "a.test"; one; one; JFunction 3]) empty_world
    = (Ok (JObject 7), w1)
    /\ NodeUnbound_Resolve stub_engine handle
         (method_call [JString "b.test"; one; one; JFunction 4]) w1
       = (Ok (JObject 7), w2)
    /\ p1 <> p2
    /\ run_queued stub_engine 1 w2 = (Ok tt, w3)
    /\ run_queued stub_engine 0 w3 = (Ok tt, w4)
    /\ heap w4 = ∅
    /\ queue w4 = []
    /\ trace w4 = trace w2 ++ new
    /\ count (is_free_of p1) new = 1%nat
    /\ count (is_free_of p2) new = 1%nat
    /\ count is_free new = 2%nat.
Proof.
  destruct (two_tasks_either_order stub_engine handle
              (method_call [JString "a.test"; one; one; JFunction 3])
              (method_call [JString "b.test"; one; one; JFunction 4])
              empty_world stub_engine_completes stub_engine_has_memory
              eq_refl eq_refl)
    as (w1 & w2 & p1 & p2 & Hr1 & Hr2 & Hne & _ & Horder).
  destruct (Horder 1%nat (or_intror eq_refl)) as (w3 & w4 & new & Hrest).
  exists w1, w2, p1, p2, w3, w4, new.
  split; [exact Hr1|]. split; [exact Hr2|]. split; [exact Hne|exact Hrest].
Defined.

(** ** The worker's destructor, the callback, the frame of a task *)

(** X10: the worker's destructor frees the name copy and releases the
    result when it holds them, and clears both fields; run on the worker it
    leaves, it does nothing.  Nothing is freed or released twice. *)
Theorem worker_dtor_is_idempotent (wk : NodeUnboundWorker) (w : world) :
  (forall p, w_name wk = Some p -> is_Some (heap w !! p)) ->
  exists wk' w',
    NodeUnboundWorker_dtor wk w = (Ok wk', w')
    /\ w_name wk' = None
    /\ w_result wk' = None
    /\ trace w'
       = trace w
         ++ match w_name wk with Some p => [ev_free p] | None => [] end
         ++ match w_result wk with
            | Some r => [ev_ub_resolve_free r]
            | None => []
            end
    /\ NodeUnboundWorker_dtor wk' w' = (Ok wk', w').
Proof.
  intros Hlive.
  assert (Hagain : forall wk0 w0,
            w_name wk0 = None -> w_result wk0 = None ->
            NodeUnboundWorker_dtor wk0 w0 = (Ok wk0, w0)).
  { intros wk0 w0 Hn Hr. unfold NodeUnboundWorker_dtor. nu_unfold.
    now rewrite Hn, Hr. }
  unfold NodeUnboundWorker_dtor at 1.
  unfold free, call_ub_resolve_free. nu_unfold.
  destruct (w_name wk) as [p|] eqn:Hname.
  - destruct (Hlive p eq_refl) as [s Hs]. simpl. rewrite Hs. simpl.
    destruct (w_result wk) as [r|] eqn:Hres; simpl;
      eexists _, _; (split; [reflexivity|]); simpl;
      rewrite <- ?app_assoc, ?app_nil_r;
      (split; [reflexivity|]); (split; [try reflexivity|]);
      try (split; [reflexivity|apply Hagain; reflexivity]).
    all: try exact Hres.
    split; [reflexivity|apply Hagain; [reflexivity|exact Hres]].
  - simpl. destruct (w_result wk) as [r|] eqn:Hres; simpl.
    + eexists _, _. split; [reflexivity|]. simpl.
      split; [exact Hname|]. split; [reflexivity|].
      split; [reflexivity|apply Hagain; [exact Hname|reflexivity]].
    + eexists _, _. split; [reflexivity|].
      split; [exact Hname|]. split; [exact Hres|].
      split; [now rewrite app_nil_r|apply Hagain; assumption].
Qed.

Lemma worker_dtor_is_idempotent_witness :
  exists wk' w',
    NodeUnboundWorker_dtor stub_worker stub_world = (Ok wk', w')
    /\ w_name wk' = None
    /\ w_result wk' = None
    /\ trace w' = trace stub_world ++ [ev_free 0]
    /\ NodeUnboundWorker_dtor wk' w' = (Ok wk', w').
Proof.
  apply (worker_dtor_is_idempotent stub_worker stub_world).
  intros p Hp. injection Hp as <-. eexists. reflexivity.
Defined.

(** X11: a task that comes to its end calls the completion callback
    exactly once, in the error-first convention: with status zero the
    arguments are [null] and the answer (the copied bytes, the two flags,
    and the reason as [Nan::New<v8::String>] decodes it, or [null]); with
    any other status the single argument is an error object with the
    translated message. *)
Theorem task_calls_back_error_first
    (E : Engine) (wk : NodeUnboundWorker) (w : world) (p : nat) (s : string)
    (f : nat) (err : Z) (r : option ub_result) :
  queued wk w p s f ->
  ub_resolve E (trace w) (w_ctx wk) s (w_rrtype wk) (w_rrclass wk)
  = (err, r) ->
  completes err r = true ->
  exists w' new argv,
    run_task E wk w = (Ok tt, w')
    /\ trace w' = trace w ++ new
    /\ List.filter is_callback new = [ev_callback f argv]
    /\ (err = 0 ->
        exists res, r = Some res /\ argv = [JNull; answer_of E res])
    /\ (err <> 0 -> argv = [JException (Error (nu_strerror E err))]).
Proof.
  intros Hq Hub Hdone.
  pose proof (run_task_run E wk w p s f Hq) as Hrun.
  rewrite Hub, Hdone in Hrun.
  unfold completes in Hdone. unfold task_events in Hrun.
  destruct (Z.eqb_spec err 0) as [Hz|Hnz].
  - destruct r as [res|]; [|discriminate].
    eexists _, _, _. split; [exact Hrun|]. split; [reflexivity|].
    split; [reflexivity|]. split; [|congruence].
    intros _. exists res. split; reflexivity.
  - eexists _, _, _. split; [exact Hrun|]. split; [reflexivity|].
    split; [destruct r; reflexivity|]. split; [congruence|reflexivity].
Qed.

Lemma task_calls_back_error_first_witness :
  exists w' new argv,
    run_task (engine_resolving 0 (Some bogus_result)) stub_worker stub_world
    = (Ok tt, w')
    /\ trace w' = trace stub_world ++ new
    /\ List.filter is_callback new = [ev_callback 3 argv]
    /\ argv = [JNull;
               JArray [JBuffer [x01; x02; x03]; JBoolean false;
                       JBoolean true;
                       JString ("no" +:+ replacement +:+ "key")]].
Proof.
  destruct (task_calls_back_error_first
              (engine_resolving 0 (Some bogus_result))
              stub_worker stub_world 0 "example.test" 3 0
              (Some bogus_result) stub_worker_queued eq_refl eq_refl)
    as (w' & new & argv & Hrun & Htrace & Hcb & Hok & _).
  exists w', new, argv.
  split; [exact Hrun|]. split; [exact Htrace|]. split; [exact Hcb|].
  destruct (Hok eq_refl) as (res & Hres & Hargv).
  injection Hres as <-. exact Hargv.
Defined.

(** X12: whatever the engine answers, a task makes the blocking resolve
    call exactly once, on the context and with the type and class the
    worker was built with, and never throws a JS exception.  It leaves the
    queue and the wrapped handles alone, makes no configuration call, copies
    no name and deletes no context: a failed resolve does not invalidate
    the handle. *)
Theorem task_resolves_once
    (E : Engine) (wk : NodeUnboundWorker) (w : world) (p : nat) (s : string)
    (f : nat) :
  queued wk w p s f ->
  exists o w' later,
    run_task E wk w = (o, w')
    /\ (o = Ok tt \/ o = Abort)
    /\ trace w'
       = trace w ++ ev_ub_resolve (w_ctx wk) s (w_rrtype wk) (w_rrclass wk)
                    :: later
    /\ count is_ub_resolve later = 0%nat
    /\ count is_ub later = 0%nat
    /\ count is_strdup later = 0%nat
    /\ count is_ub_ctx_delete later = 0%nat
    /\ queue w' = queue w
    /\ wrapped w' = wrapped w.
Proof.
  intros Hq. pose proof (run_task_run E wk w p s f Hq) as Hrun.
  destruct (ub_resolve E (trace w) (w_ctx wk) s (w_rrtype wk) (w_rrclass wk))
    as [err r].
  rewrite Hrun. unfold task_events, count.
  destruct (completes err r), (err =? 0), r as [res|]; simpl;
    eexists _, _, _; (split; [reflexivity|]); simpl;
    (split; [auto|]); repeat split; reflexivity.
Qed.

Lemma task_resolves_once_witness :
  exists o w' later,
    run_task stub_engine stub_worker stub_world = (o, w')
    /\ (o = Ok tt \/ o = Abort)
    /\ trace w'
       = trace stub_world ++ ev_ub_resolve (Some 1%nat) "example.test" 1 1
                              :: later
    /\ count is_ub_resolve later = 0%nat
    /\ count is_ub later = 0%nat
    /\ count is_strdup later = 0%nat
    /\ count is_ub_ctx_delete later = 0%nat
    /\ queue w' = queue stub_world
    /\ wrapped w' = wrapped stub_world.
Proof.
  exact (task_resolves_once stub_engine stub_worker stub_world 0
           "example.test" 3 stub_worker_queued).
Defined.

(** ** The life of a handle *)

(** X13: a constructor that gets no context leaves nothing to release.
    Called without [new] it throws at once and the world is as it was.
    When [ub_ctx_create] gives NULL it throws the same message, the wrapped
    object holds no context, and finalizing that object later asks for no
    [ub_ctx_delete]. *)
Theorem New_without_context (E : Engine) (info : FunctionCallbackInfo)
    (w : world) :
  (IsConstructCall info = false ->
   NodeUnbound_New E info w
   = (Throw (Error "Could not create Unbound instance."), w))
  /\ (IsConstructCall info = true ->
      ub_ctx_create E (trace w) = None ->
      exists w' w'',
        NodeUnbound_New E info w
        = (Throw (Error "Could not create Unbound instance."), w')
        /\ trace w' = trace w ++ [ev_ub_ctx_create]
        /\ wrapped w' !! This info = Some {| ctx := None |}
        /\ finalize (This info) w' = (Ok tt, w'')
        /\ trace w'' = trace w'
        /\ wrapped w'' !! This info = None).
Proof.
  split.
  - intros Hcall. unfold NodeUnbound_New. now rewrite Hcall.
  - intros Hcall Hnone. unfold NodeUnbound_New. rewrite Hcall.
    unfold bind, Wrap, assign_ctx, call_ub_ctx_create. simpl.
    rewrite Hnone. simpl. eexists _, _. split; [reflexivity|]. simpl.
    split; [reflexivity|]. split; [apply lookup_insert_eq|].
    unfold finalize. simpl. rewrite lookup_insert_eq. simpl.
    split; [reflexivity|]. simpl.
    split; [reflexivity|apply lookup_delete_eq].
Qed.

Lemma New_without_context_witness :
  NodeUnbound_New stub_engine (method_call []) empty_world
  = (Throw (Error "Could not create Unbound instance."), empty_world).
Proof.
  apply (proj1 (New_without_context stub_engine (method_call [])
                  empty_world)).
  reflexivity.
Defined.

(** X14: a constructor whose three engine calls succeed returns the
    receiver after asking, in this order, for a context, for debug output
    to NULL, and for debug level 0; the heap and the queue are untouched
    and the wrapped object holds the context.  Finalizing the object
    deletes that context, once; the wrapper is gone afterwards and a second
    finalization does nothing. *)
Theorem New_then_finalize (E : Engine) (info : FunctionCallbackInfo)
    (w : world) (c : ub_ctx) :
  IsConstructCall info = true ->
  ub_ctx_create E (trace w) = Some c ->
  debugout_status E w c = 0 ->
  debuglevel_status E w c = 0 ->
  exists w' w'',
    NodeUnbound_New E info w = (Ok (JObject (This info)), w')
    /\ trace w' = trace w ++ [ev_ub_ctx_create;
                              ev_ub (ub_ctx_debugout (Some c) None);
                              ev_ub (ub_ctx_debuglevel (Some c) 0)]
    /\ heap w' = heap w
    /\ queue w' = queue w
    /\ wrapped w' !! This info = Some {| ctx := Some c |}
    /\ finalize (This info) w' = (Ok tt, w'')
    /\ trace w'' = trace w' ++ [ev_ub_ctx_delete c]
    /\ wrapped w'' !! This info = None
    /\ finalize (This info) w'' = (Ok tt, w'').
Proof.
  intros Hcall Hcreate H1 H2.
  rewrite (New_run E info w c Hcall Hcreate), H1, H2. simpl.
  eexists _, _. split; [reflexivity|]. simpl.
  split; [unfold debuglevel_trace, debugout_trace;
          now rewrite <- app_assoc|].
  split; [reflexivity|]. split; [reflexivity|].
  split; [apply lookup_insert_eq|].
  rewrite finalize_holding. split; [reflexivity|]. simpl.
  split; [reflexivity|]. split; [apply lookup_delete_eq|].
  unfold finalize. simpl. now rewrite lookup_delete_eq.
Qed.

Lemma New_then_finalize_witness :
  exists w' w'',
    NodeUnbound_New stub_engine
      {| This := 7%nat; IsConstructCall := true; args := [] |} empty_world
    = (Ok (JObject 7), w')
    /\ trace w' = [ev_ub_ctx_create;
                   ev_ub (ub_ctx_debugout (Some 1%nat) None);
                   ev_ub (ub_ctx_debuglevel (Some 1%nat) 0)]
    /\ heap w' = ∅
    /\ queue w' = []
    /\ wrapped w' !! 7%nat = Some {| ctx := Some 1%nat |}
    /\ finalize 7 w' = (Ok tt, w'')
    /\ trace w'' = trace w' ++ [ev_ub_ctx_delete 1%nat]
    /\ wrapped w'' !! 7%nat = None
    /\ finalize 7 w'' = (Ok tt, w'').
Proof.
  apply (New_then_finalize stub_engine
           {| This := 7%nat; IsConstructCall := true; args := [] |}
           empty_world 1%nat); reflexivity.
Defined.

Lemma config_step (E : Engine) (ub : NodeUnbound)
    (info : FunctionCallbackInfo) (w : world)
    (m : Engine -> NodeUnbound -> FunctionCallbackInfo -> M js_value) :
  m ∈ config_methods ->
  snd (m E ub info w) = w
  \/ exists call,
       call_ctx call = ctx ub
       /\ snd (m E ub info w) = set_trace (trace w ++ [ev_ub call]) w.
Proof.
  intros Hin.
  change config_methods with (snd <$> config_table) in Hin.
  apply list_elem_of_fmap in Hin. destruct Hin as ([[name sig] m'] & -> & Hin).
  pose proof (config_entry_outcome E ub info w) as Hall.
  rewrite Forall_forall in Hall. specialize (Hall _ Hin).
  unfold config_outcome in Hall. simpl.
  destruct (argument_error name sig info) as [e|].
  - left. now rewrite Hall.
  - right. destruct Hall as (call & Hctx & _ & Hrun).
    exists call. split; [exact Hctx|]. simpl in Hrun. now rewrite Hrun.
Qed.

(** X15: any script of configuration calls on a handle, whatever their
    arguments and whichever of them throw, leaves the heap, the worker
    queue and the wrapped objects as they were.  All it adds to the trace
    are engine calls on the handle's own context, at most one per call of
    the script: no context is created or deleted, no name is copied, no
    task is started. *)
Theorem config_calls_keep_resources (E : Engine) (ub : NodeUnbound)
    (calls : list ((Engine -> NodeUnbound -> FunctionCallbackInfo
                    -> M js_value) * FunctionCallbackInfo))
    (w : world) :
  Forall (fun call => fst call ∈ config_methods) calls ->
  heap (run_calls E ub calls w) = heap w
  /\ queue (run_calls E ub calls w) = queue w
  /\ wrapped (run_calls E ub calls w) = wrapped w
  /\ exists made,
       trace (run_calls E ub calls w) = trace w ++ (ev_ub <$> made)
       /\ (length made <= length calls)%nat
       /\ Forall (fun call => call_ctx call = ctx ub) made.
Proof.
  revert w. induction calls as [|[m info] calls IH]; intros w Hall.
  - simpl. repeat split. exists []. simpl.
    rewrite app_nil_r. split; [reflexivity|]. split; [lia|constructor].
  - apply Forall_cons in Hall. destruct Hall as [Hm Hall]. simpl in Hm.
    simpl. destruct (config_step E ub info w m Hm) as [Hsame|(call & Hc & Hw)].
    + rewrite Hsame.
      destruct (IH w Hall) as (Hh & Hq & Hwr & made & Ht & Hlen & Hctx).
      repeat (split; [assumption|]).
      exists made. split; [exact Ht|]. split; [lia|exact Hctx].
    + rewrite Hw.
      destruct (IH (set_trace (trace w ++ [ev_ub call]) w) Hall)
        as (Hh & Hq & Hwr & made & Ht & Hlen & Hctx).
      simpl in *. repeat (split; [assumption|]).
      exists (call :: made). split; [now rewrite Ht, <- app_assoc|].
      split; [simpl; lia|]. now constructor.
Qed.

Lemma config_calls_keep_resources_witness :
  let w' :=
    run_calls stub_engine handle
      [(NodeUnbound_SetForward, method_call [JString "192.0.2.53"]);
       (NodeUnbound_AddZone, method_call [JString "example."]);
       (NodeUnbound_AddTrustAnchorFile,
        method_call [JString "root.key"; JBoolean true])]
      empty_world in
  heap w' = ∅ /\ queue w' = [] /\ wrapped w' = ∅
  /\ exists made,
       trace w' = ev_ub <$> made
       /\ (length made <= 3)%nat
       /\ Forall (fun call => call_ctx call = Some 1%nat) made.
Proof.
  apply (config_calls_keep_resources stub_engine handle
           [(NodeUnbound_SetForward, method_call [JString "192.0.2.53"]);
            (NodeUnbound_AddZone, method_call [JString "example."]);
            (NodeUnbound_AddTrustAnchorFile,
             method_call [JString "root.key"; JBoolean true])]
           empty_world).
  repeat constructor.
Defined.

(** ** The size of the message buffer *)

(** X16: the message of [nu_strerror] always starts with
    ["libunbound: "], and with its terminator it never needs more than the
    12 + 256 + 1 bytes of the static buffer.  It needs all of them exactly
    when the engine's string has 256 characters: the buffer has no
    spare byte and no missing one. *)
Theorem nu_strerror_buffer_is_exact (E : Engine) (err : Z) :
  (exists msg, nu_strerror E err = "libunbound: " +:+ msg)
  /\ Z.of_nat (String.length (nu_strerror E err)) + 1 <= errmsg_size
  /\ (Z.of_nat (String.length (nu_strerror E err)) + 1 = errmsg_size
      <-> exists s, ub_strerror E err = Some s
                    /\ String.length s = 256%nat).
Proof.
  rewrite nu_strerror_translated. unfold translated, errmsg_size.
  destruct (ub_strerror E err) as [s|].
  - destruct (Nat.leb_spec (String.length s) 256) as [Hle|Hgt].
    + split; [eexists; reflexivity|].
      rewrite string_length_append. simpl String.length.
      split; [lia|]. split.
      * intros H. exists s. split; [reflexivity|lia].
      * intros (s' & Hs & Hlen). injection Hs as <-. lia.
    + split; [eexists; reflexivity|]. simpl String.length.
      split; [lia|]. split; [lia|].
      intros (s' & Hs & Hlen). injection Hs as <-. lia.
  - split; [eexists; reflexivity|]. simpl String.length.
    split; [lia|]. split; [lia|]. intros (s' & Hs & _). discriminate.
Qed.
